(** * vol2mesh: from a labelled voxel volume to an OBJ mesh

    A shallow embedding of [vol2mesh.py]: the bounding-box and crop/pad
    arithmetic of [findBBDimensions] and [calcMeshWithCrop], the vertex and
    face transform and the OBJ writer of [mesh_from_array] and
    [generate_obj], and the named-pipe protocol of [temp_pipe] and
    [simplify_mesh].

    The external collaborators ([marching_cubes.march], the
    [fq-mesh-simplify] executable, the element arithmetic of numpy arrays)
    are section variables. *)

From Stdlib Require Import ZArith String Ascii List Lia Bool.
From Stdlib Require Import Decimal DecimalString.
From Stdlib Require Import Floats.SpecFloat.
From stdpp Require Import gmap strings list fin_maps.
Import ListNotations.

Local Open Scope string_scope.
Local Open Scope Z_scope.
Local Open Scope list_scope.

(* ===================================================================== *)
(** ** Python exceptions and results *)
(* ===================================================================== *)

(** The exceptions the embedded functions can raise.  [AssertionError]
    carries the optional message of the [assert] statement. *)
Inductive exn : Type :=
| ValueError (msg : string)
| IndexError (msg : string)
| AssertionError (msg : option string)
| RuntimeError (msg : string)
| FileExistsError
| FileNotFoundError
| OSError (msg : string).

(** A Python call either returns a value or raises. *)
Inductive result (A : Type) : Type :=
| Return (a : A)
| Raise (e : exn).
Arguments Return {A} a.
Arguments Raise {A} e.

Definition rbind {A B} (r : result A) (k : A -> result B) : result B :=
  match r with
  | Return a => k a
  | Raise e => Raise e
  end.

Declare Scope py_scope.
Delimit Scope py_scope with py.
Notation "'let!' x ':=' c 'in' k" := (rbind c (fun x => k))
  (at level 10, x pattern, c at level 100, k at level 200) : py_scope.
Local Open Scope py_scope.

(* ===================================================================== *)
(** ** numpy arrays of rank three *)
(* ===================================================================== *)

(** A rank-3 array is its shape and its element lookup.  Only the elements
    at indices inside the shape are meaningful. *)
Record ndarray (A : Type) : Type := NDArray {
  shape : nat * nat * nat;
  item : nat -> nat -> nat -> A
}.
Arguments NDArray {A} shape item.
Arguments shape {A} _.
Arguments item {A} _ _ _ _.

Definition in_shape (sh : nat * nat * nat) (i j k : nat) : Prop :=
  (i < sh.1.1)%nat /\ (j < sh.1.2)%nat /\ (k < sh.2)%nat.

(** [a.transpose()]: the axes are reversed. *)
Definition transpose {A} (a : ndarray A) : ndarray A :=
  let '(d0, d1, d2) := shape a in
  NDArray (d2, d1, d0) (fun i j k => item a k j i).

(** [a > 0], elementwise. *)
Definition gt0 (a : ndarray Z) : ndarray bool :=
  NDArray (shape a) (fun i j k => 0 <? item a i j k).

(** All indices of a shape in C (row-major) order. *)
Definition indices (sh : nat * nat * nat) : list (nat * nat * nat) :=
  let '(d0, d1, d2) := sh in
  flat_map (fun i =>
    flat_map (fun j =>
      map (fun k => (i, j, k)) (seq 0 d2)) (seq 0 d1)) (seq 0 d0).

Definition where_coords (mask : ndarray bool) : list (nat * nat * nat) :=
  List.filter (fun '(i, j, k) => item mask i j k) (indices (shape mask)).

(** [np.where(mask)]: one index array per axis, in C order. *)
Definition np_where (mask : ndarray bool) : list Z * list Z * list Z :=
  let cs := where_coords mask in
  (map (fun c => Z.of_nat c.1.1) cs,
   map (fun c => Z.of_nat c.1.2) cs,
   map (fun c => Z.of_nat c.2) cs).

(** One bound of a basic slice [lo:hi] on an axis of length [d]: a negative
    bound counts from the end, and both are clamped to [0, d]. *)
Definition slice_index (d : nat) (v : Z) : Z :=
  if v <? 0 then Z.max 0 (v + Z.of_nat d) else Z.min v (Z.of_nat d).

(** Start and length of the slice [lo:hi]. *)
Definition slice_range (d : nat) (lo hi : Z) : nat * nat :=
  let s := slice_index d lo in
  let e := slice_index d hi in
  (Z.to_nat s, Z.to_nat (e - s)).

(** [np.zeros(sh, dtype=bool)]. *)
Definition np_zeros (sh : nat * nat * nat) : ndarray bool :=
  NDArray sh (fun _ _ _ => false).

(** An integer index on an axis of length [d]; out of range is an
    [IndexError]. *)
Definition norm_index (d : nat) (v : Z) : option nat :=
  if (0 <=? v) && (v <? Z.of_nat d) then Some (Z.to_nat v)
  else if (- Z.of_nat d <=? v) && (v <? 0) then Some (Z.to_nat (v + Z.of_nat d))
  else None.

Definition setitem {A} (a : ndarray A) (i j k : nat) (v : A) : ndarray A :=
  NDArray (shape a)
    (fun i' j' k' =>
       if (i' =? i)%nat && (j' =? j)%nat && (k' =? k)%nat then v
       else item a i' j' k').

(** [a[(I, J, K)] = v] with three index arrays of one length, the form
    [np.where] returns them in. *)
Fixpoint setitem_fancy {A} (a : ndarray A) (I J K : list Z) (v : A)
  : result (ndarray A) :=
  match I, J, K with
  | [], [], [] => Return a
  | i :: I', j :: J', k :: K' =>
      let '(d0, d1, d2) := shape a in
      match norm_index d0 i, norm_index d1 j, norm_index d2 k with
      | Some i', Some j', Some k' =>
          setitem_fancy (setitem a i' j' k' v) I' J' K' v
      | _, _, _ => Raise (IndexError "index out of bounds")
      end
  | _, _, _ => Raise (IndexError "shape mismatch")
  end.

(* ===================================================================== *)
(** ** Bounding box: [findBBDimensions] *)
(* ===================================================================== *)

(** The builtins [min] and [max] on a sequence of integers. *)
Definition py_min (l : list Z) : result Z :=
  match l with
  | [] => Raise (ValueError "min() arg is an empty sequence")
  | x :: r => Return (fold_left Z.min r x)
  end.

Definition py_max (l : list Z) : result Z :=
  match l with
  | [] => Raise (ValueError "max() arg is an empty sequence")
  | x :: r => Return (fold_left Z.max r x)
  end.

(** The six-element list [[minxs, maxxs+1, minys, maxys+1, minzs, maxzs+1]].
    [findBBDimensions] calls the axes x, y, z in the order of the index
    arrays it is given; its caller passes them in array-axis order, so
    [lo0, hi0] bound axis 0, and so on.  The arithmetic is that of the
    integers, which is that of numpy's [int64] on the arrays [np.where]
    returns (see [int64_safe]). *)
Record bbox : Type := BBox {
  lo0 : Z; hi0 : Z;
  lo1 : Z; hi1 : Z;
  lo2 : Z; hi2 : Z
}.

Definition findBBDimensions (listOfPixels : list Z * list Z * list Z)
  : result (bbox * (Z * Z * Z)) :=
  let xs := listOfPixels.1.1 in
  let ys := listOfPixels.1.2 in
  let zs := listOfPixels.2 in
  let! minxs := py_min xs in
  let! maxxs := py_max xs in
  let! minys := py_min ys in
  let! maxys := py_max ys in
  let! minzs := py_min zs in
  let! maxzs := py_max zs in
  let dx := maxxs - minxs in
  let dy := maxys - minys in
  let dz := maxzs - minzs in
  Return (BBox minxs (maxxs + 1) minys (maxys + 1) minzs (maxzs + 1),
          (dx, dy, dz)).

(* ===================================================================== *)
(** ** Crop and pad: the volume part of [calcMeshWithCrop] *)
(* ===================================================================== *)

(** [labelStack[box[0]:box[1], box[2]:box[3], box[4]:box[5]]]. *)
Definition crop {A} (a : ndarray A) (box : bbox) : ndarray A :=
  let '(d0, d1, d2) := shape a in
  let '(s0, n0) := slice_range d0 (lo0 box) (hi0 box) in
  let '(s1, n1) := slice_range d1 (lo1 box) (hi1 box) in
  let '(s2, n2) := slice_range d2 (lo2 box) (hi2 box) in
  NDArray (n0, n1, n2)
    (fun i j k => item a (s0 + i)%nat (s1 + j)%nat (s2 + k)%nat).

(** Lines 157 to 165: the window, its foreground indices, and the blank
    image two voxels larger with the foreground set at offset one. *)
Definition crop_and_pad (labelStack : ndarray Z) (box : bbox)
  : result (ndarray bool) :=
  let window := crop labelStack box in
  let localIndices := np_where (gt0 window) in
  let '(w0, w1, w2) := shape window in
  let paddedWindowSize := (w0 + 2, w1 + 2, w2 + 2)%nat in
  let blankImg := np_zeros paddedWindowSize in
  setitem_fancy blankImg
    (map (fun i => i + 1) localIndices.1.1)
    (map (fun i => i + 1) localIndices.1.2)
    (map (fun i => i + 1) localIndices.2)
    true.

(** Lines 153 to 165 of [calcMeshWithCrop]: the volume handed to [march]. *)
Definition calcMeshWithCrop_blankImg (labelStack : ndarray Z)
  : result (ndarray bool) :=
  let indices := np_where (gt0 labelStack) in
  let! (box, dimensions) := findBBDimensions indices in
  crop_and_pad labelStack box.

(* ===================================================================== *)
(** ** Text formatting *)
(* ===================================================================== *)

Definition newline : string := String "010"%char EmptyString.
Definition dquote : string := String "034"%char EmptyString.

(** [str(n)] for an integer, as in the replacement field [{v1}]. *)
Definition str_int (n : Z) : string := NilZero.string_of_int (Z.to_int n).

Definition digit_char (d : Z) : ascii := ascii_of_nat (48 + Z.to_nat d).

(** The [w] low decimal digits of [n], most significant first, zeros
    included. *)
Fixpoint dec_fixed (w : nat) (n : Z) : string :=
  match w with
  | O => EmptyString
  | S w' => dec_fixed w' (n / 10) +:+ String (digit_char (n mod 10)) EmptyString
  end.

(** The integer nearest to [m * 2^e * 10^p], ties to the even one: the
    correctly rounded scaling that [float.__format__] performs. *)
Definition scaled_round (p : nat) (m : positive) (e : Z) : Z :=
  let n := Z.pos m * 10 ^ Z.of_nat p in
  if 0 <=? e then n * 2 ^ e
  else
    let d := 2 ^ (- e) in
    let q := n / d in
    let r := n mod d in
    if 2 * r <? d then q
    else if d <? 2 * r then q + 1
    else if Z.even q then q else q + 1.

(** [n] units of [10^-p] written with [p] decimals ([p] positive). *)
Definition fixed_point (p : nat) (n : Z) : string :=
  str_int (n / 10 ^ Z.of_nat p) +:+ "." +:+ dec_fixed p (n mod 10 ^ Z.of_nat p).

Definition sign_str (s : bool) : string := if s then "-" else "".

(** [format(x, '.<p>f')] for a Python float, given as the IEEE 754 value
    it holds. *)
Definition format_f (p : nat) (x : spec_float) : string :=
  match x with
  | S754_nan => "nan"
  | S754_infinity s => sign_str s +:+ "inf"
  | S754_zero s => sign_str s +:+ fixed_point p 0
  | S754_finite s m e => sign_str s +:+ fixed_point p (scaled_round p m e)
  end.

(** [s.encode('utf-8')]; a string is held as its UTF-8 bytes. *)
Definition encode_utf8 (s : string) : list Byte.byte := list_byte_of_string s.

(* ===================================================================== *)
(** ** [io.BytesIO] *)
(* ===================================================================== *)

Record BytesIO : Type := mkBytesIO {
  getvalue : list Byte.byte;
  tell : nat
}.

Definition BytesIO_new (initial : list Byte.byte) : BytesIO :=
  mkBytesIO initial 0.

(** [s.write(b)] writes at the position, zero-filling a gap past the end
    and overwriting what is there; an empty write changes nothing. *)
Definition bio_write (b : list Byte.byte) (s : BytesIO) : BytesIO :=
  match b with
  | [] => s
  | _ =>
      let pos := tell s in
      let buf := getvalue s in
      let head := take pos buf ++ repeat Byte.x00 (pos - length buf) in
      mkBytesIO (head ++ b ++ drop (pos + length b) buf) (pos + length b)
  end.

Definition bio_seek (pos : nat) (s : BytesIO) : BytesIO :=
  mkBytesIO (getvalue s) pos.

(** [s.read()]: everything from the position on; the position moves to the
    end. *)
Definition bio_read (s : BytesIO) : list Byte.byte * BytesIO :=
  (drop (tell s) (getvalue s),
   mkBytesIO (getvalue s) (Nat.max (tell s) (length (getvalue s)))).

(* ===================================================================== *)
(** ** The operating system: temporary directories, pipes, processes *)
(* ===================================================================== *)

(** A path [f"{dir}/{name}"] inside a temporary directory. *)
Record path : Type := Path {
  path_dir : nat;
  path_name : string
}.

(** The name of temporary directory number [d]; the number stands for the
    random part of the name [mkdtemp] picks. *)
Definition dir_str (d : nat) : string := "/tmp/tmp" +:+ str_int (Z.of_nat d).
Definition path_str (p : path) : string :=
  dir_str (path_dir p) +:+ "/" +:+ path_name p.

(** The part of the world the pipe protocol touches: the temporary
    directories with the names of their entries, and the command lines
    handed to [subprocess.Popen], latest first. *)
Record World : Type := mkWorld {
  fs : gmap nat (gset string);
  spawned : list string
}.

Definition set_fs (f : gmap nat (gset string) -> gmap nat (gset string))
  (w : World) : World :=
  mkWorld (f (fs w)) (spawned w).

Definition dir_exists (w : World) (d : nat) : Prop := is_Some (fs w !! d).

Definition path_exists (w : World) (p : path) : Prop :=
  exists ents, fs w !! path_dir p = Some ents /\ path_name p ∈ ents.

(** Effectful Python code: a state transformer on the world that returns
    or raises.  A raise keeps the changes made so far. *)
Definition M (A : Type) : Type := World -> result A * World.

Definition ret {A} (a : A) : M A := fun w => (Return a, w).
Definition raise {A} (e : exn) : M A := fun w => (Raise e, w).
Definition bind {A B} (c : M A) (k : A -> M B) : M B :=
  fun w =>
    match c w with
    | (Return a, w') => k a w'
    | (Raise e, w') => (Raise e, w')
    end.

Notation "'do!' x '<-' c ';' k" := (bind c (fun x => k))
  (at level 10, x pattern, c at level 100, k at level 200) : py_scope.
Notation "c ';;' k" := (bind c (fun _ => k))
  (at level 100, k at level 200, right associativity) : py_scope.

(** [try: body finally: fin].  The [finally] block always runs; if it
    raises, its exception replaces the outcome of the body, a pending
    [return] value included. *)
Definition try_finally {A} (body : M A) (fin : M unit) : M A :=
  fun w =>
    let '(r, w1) := body w in
    match fin w1 with
    | (Return _, w2) => (r, w2)
    | (Raise e, w2) => (Raise e, w2)
    end.

(** [tempfile.mkdtemp()]: a new, empty directory.  Runs in which the
    directory cannot be made are not covered. *)
Definition mkdtemp : M nat :=
  fun w =>
    let d := fresh (dom (fs w)) in
    (Return d, set_fs (insert d ∅) w).

(** [os.mkfifo(path)].  The name is taken as one entry of the directory;
    names that cannot be one (see [entry_name]) are not covered. *)
Definition os_mkfifo (p : path) : M unit :=
  fun w =>
    match fs w !! path_dir p with
    | None => (Raise FileNotFoundError, w)
    | Some ents =>
        if decide (path_name p ∈ ents) then (Raise FileExistsError, w)
        else (Return tt, set_fs (insert (path_dir p) ({[path_name p]} ∪ ents)) w)
    end.

Definition os_unlink (p : path) : M unit :=
  fun w =>
    match fs w !! path_dir p with
    | None => (Raise FileNotFoundError, w)
    | Some ents =>
        if decide (path_name p ∈ ents)
        then (Return tt, set_fs (insert (path_dir p) (ents ∖ {[path_name p]})) w)
        else (Raise FileNotFoundError, w)
    end.

Definition os_rmdir (d : nat) : M unit :=
  fun w =>
    match fs w !! d with
    | None => (Raise FileNotFoundError, w)
    | Some ents =>
        if decide (ents = ∅) then (Return tt, set_fs (delete d) w)
        else (Raise (OSError "Directory not empty"), w)
    end.

(** A generator function decorated with [@contextmanager] whose single
    [yield] stands outside any [try]: [cm_before] runs up to the [yield]
    and gives the generator's locals and the yielded value, [cm_after] is
    the code after the [yield]. *)
Record generator_cm (L A : Type) : Type := GeneratorCM {
  cm_before : M (L * A);
  cm_after : L -> M unit
}.
Arguments GeneratorCM {L A} cm_before cm_after.
Arguments cm_before {L A} _.
Arguments cm_after {L A} _ _.

(** [with cm as x: body].  On a normal exit of the body the generator is
    resumed and runs [cm_after].  On an exception the exception is thrown
    into the generator at the [yield]; nothing catches it there, so the
    generator ends at once, [cm_after] is not run, and the exception goes
    on to the caller. *)
Definition py_with {L A B} (cm : generator_cm L A) (body : A -> M B) : M B :=
  fun w =>
    match cm_before cm w with
    | (Raise e, w1) => (Raise e, w1)
    | (Return (locals, x), w1) =>
        match body x w1 with
        | (Return b, w2) =>
            match cm_after cm locals w2 with
            | (Return _, w3) => (Return b, w3)
            | (Raise e, w3) => (Raise e, w3)
            end
        | (Raise e, w2) => (Raise e, w2)
        end
    end.

(** [temp_pipe(name)]. *)
Definition temp_pipe (name : string) : generator_cm (nat * path) path :=
  GeneratorCM
    (do! dir <- mkdtemp;
     let path := Path dir name in
     os_mkfifo path;;
     ret ((dir, path), path))
    (fun '(dir, path) =>
       os_unlink path;;
       os_rmdir dir).

(** What the parent observes of one run of the child process: the outcome
    of opening the response pipe and reading it to the end, and the exit
    code [proc.wait()] stores.  Runs in which the [open] of the pipe never
    returns have no outcome here. *)
Record child : Type := Child {
  pipe_read : result (list Byte.byte);
  returncode : Z
}.

(** The values [simplify_mesh] may be handed as [mesh_obj_stream]. *)
Inductive pyobj : Type :=
| PyStr (s : string)
| PyBytes (b : list Byte.byte)
| PyBytesIO (s : BytesIO)
| PyInt (n : Z)
| PyNone.

Definition rev3 {A} (t : A * A * A) : A * A * A :=
  let '(a, b, c) := t in (c, b, a).

Definition map3 {A B} (f : A -> B) (t : A * A * A) : B * B * B :=
  let '(a, b, c) := t in (f a, f b, f c).

Definition zip3 {A B C} (f : A -> B -> C) (t : A * A * A) (u : B * B * B)
  : C * C * C :=
  let '(a, b, c) := t in
  let '(a', b', c') := u in
  (f a a', f b b', f c c').

Section Pipeline.

(** Element type of the vertex array with numpy's in-place multiply and
    add on it, and the conversion [float.__format__] starts with. *)
Context {num : Type}.
Variable num_mul : num -> num -> num.
Variable num_add : num -> num -> num.
Variable to_float : num -> spec_float.

(** [marching_cubes.march(volume, smoothing_rounds)]: vertices, normals
    and faces with 0-based indices. *)
Context {V : Type}.
Variable march :
  ndarray V -> nat ->
  list (num * num * num) * list (num * num * num) * list (Z * Z * Z).

(** The simplification ratio and its text in an f-string. *)
Context {Ratio : Type}.
Variable str_ratio : Ratio -> string.

(** The [fq-mesh-simplify] executable: from the command line and the
    bytes streamed into the request pipe to what the parent observes. *)
Variable fq_mesh_simplify : string -> list Byte.byte -> child.

(** [subprocess.Popen(cmd, shell=True)], with the bytes the writer
    thread copies into the request pipe. *)
Definition Popen (cmd : string) (written : list Byte.byte) : M child :=
  fun w =>
    (Return (fq_mesh_simplify cmd written),
     mkWorld (fs w) (cmd :: spawned w)).

(** The command line
    [f'fq-mesh-simplify "{mesh_path}" "{simple_path}" {simplify_ratio}']. *)
Definition simplify_command (mesh_path simple_path : path)
  (simplify_ratio : Ratio) : string :=
  "fq-mesh-simplify " +:+ dquote +:+ path_str mesh_path +:+ dquote
  +:+ " " +:+ dquote +:+ path_str simple_path +:+ dquote
  +:+ " " +:+ str_ratio simplify_ratio.

(** The message of the [RuntimeError] raised on a nonzero exit code. *)
Definition error_code_message (code : Z) : string :=
  "fq-mesh-simplify returned an error code: " +:+ str_int code.

Definition simplify_mesh (mesh_obj_stream : pyobj) (simplify_ratio : Ratio)
  : M (list Byte.byte) :=
  match mesh_obj_stream with
  | PyStr _ =>
      raise (AssertionError (Some "mesh_obj_stream must be bytes or BytesIO"))
  | _ =>
      let mesh_obj_stream :=
        match mesh_obj_stream with
        | PyBytes b => PyBytesIO (BytesIO_new b)
        | o => o
        end in
      match mesh_obj_stream with
      | PyBytesIO stream =>
          py_with (temp_pipe "mesh.obj") (fun mesh_path =>
          py_with (temp_pipe "simple.obj") (fun simple_path =>
            let written := (bio_read stream).1 in
            let cmd := simplify_command mesh_path simple_path simplify_ratio in
            do! proc <- Popen cmd written;
            try_finally
              (match pipe_read proc with
               | Return b => ret b
               | Raise e => raise e
               end)
              (if returncode proc =? 0 then ret tt
               else raise (RuntimeError
                             (error_code_message (returncode proc))))))
      | _ => raise (AssertionError None)
      end
  end.

Definition vertex_line (v : num * num * num) : string :=
  let '(x, y, z) := v in
  "v " +:+ format_f 7 (to_float x) +:+ " " +:+ format_f 7 (to_float y)
  +:+ " " +:+ format_f 7 (to_float z) +:+ newline.

Definition face_line (f : Z * Z * Z) : string :=
  let '(v1, v2, v3) := f in
  "f " +:+ str_int v1 +:+ " " +:+ str_int v2 +:+ " " +:+ str_int v3
  +:+ " " +:+ newline.

Definition generate_obj (vertices_xyz : list (num * num * num))
  (faces : list (Z * Z * Z)) : BytesIO :=
  let mesh_bytes := BytesIO_new [] in
  let mesh_bytes := bio_write (encode_utf8 ("# OBJ file" +:+ newline)) mesh_bytes in
  let mesh_bytes :=
    fold_left (fun mb v => bio_write (encode_utf8 (vertex_line v)) mb)
      vertices_xyz mesh_bytes in
  let mesh_bytes :=
    fold_left (fun mb f => bio_write (encode_utf8 (face_line f)) mb)
      faces mesh_bytes in
  bio_seek 0 mesh_bytes.

(** Lines 123 to 136: scale, translate, reverse and shift. *)
Definition transform_buffers (box_zyx : (num * num * num) * (num * num * num))
  (downsample_factor : num)
  (vertices_xyz : list (num * num * num)) (faces : list (Z * Z * Z))
  : list (num * num * num) * list (Z * Z * Z) :=
  let box_xyz := (rev3 box_zyx.1, rev3 box_zyx.2) in
  let vertices_xyz :=
    map (map3 (fun c => num_mul c downsample_factor)) vertices_xyz in
  let vertices_xyz :=
    map (fun v => zip3 num_add v box_xyz.1) vertices_xyz in
  let faces := map rev3 faces in
  let faces := map (map3 (fun i => i + 1)) faces in
  (vertices_xyz, faces).

Definition mesh_from_array (volume_zyx : ndarray V)
  (box_zyx : (num * num * num) * (num * num * num))
  (downsample_factor : num) (simplify_ratio : option Ratio)
  (smoothing_rounds : nat) : M (list Byte.byte) :=
  let volume_xyz := transpose volume_zyx in
  let '(vertices_xyz, _normals, faces) := march volume_xyz smoothing_rounds in
  let '(vertices_xyz, faces) :=
    transform_buffers box_zyx downsample_factor vertices_xyz faces in
  let mesh_stream := generate_obj vertices_xyz faces in
  match simplify_ratio with
  | None => ret (bio_read mesh_stream).1
  | Some ratio => simplify_mesh (PyBytesIO mesh_stream) ratio
  end.

End Pipeline.

(* ===================================================================== *)
(** ** A response pipe that nobody opens *)
(* ===================================================================== *)

(** [open(simple_path, 'rb')] on a named pipe waits until a writer opens
    the pipe.  [child] holds what the parent observes once that wait is
    over.  A run of the child is either such a run, or one in which the
    child exits with [code] without ever opening the response pipe (the
    shell does not find the executable, the tool rejects its arguments):
    then nothing ends the wait of the parent. *)
Inductive child_run : Type :=
| Opens (c : child)
| NeverOpens (code : Z).

(** The code [proc.wait()] would store. *)
Definition exit_code (r : child_run) : Z :=
  match r with
  | Opens c => returncode c
  | NeverOpens code => code
  end.

(** How a call ends: it returns or raises, or it waits for ever, in the
    world it has made by then. *)
Inductive ending (A : Type) : Type :=
| Ended (r : result A) (w : World)
| Blocked (w : World).
Arguments Ended {A} r w.
Arguments Blocked {A} w.

(** Effectful code that may wait for ever. *)
Definition MW (A : Type) : Type := World -> ending A.

(** Code that cannot wait. *)
Definition ended {A} (c : M A) : MW A :=
  fun w => let '(r, w') := c w in Ended r w'.

Definition wbind {A B} (c : MW A) (k : A -> MW B) : MW B :=
  fun w =>
    match c w with
    | Ended (Return a) w' => k a w'
    | Ended (Raise e) w' => Ended (Raise e) w'
    | Blocked w' => Blocked w'
    end.

(** [try: body finally: fin].  A body that waits for ever never reaches
    the [finally] block. *)
Definition try_finally_w {A} (body : MW A) (fin : M unit) : MW A :=
  fun w =>
    match body w with
    | Ended r w1 =>
        match fin w1 with
        | (Return _, w2) => Ended r w2
        | (Raise e, w2) => Ended (Raise e) w2
        end
    | Blocked w1 => Blocked w1
    end.

(** [with cm as x: body], for a body that may wait for ever: then the
    generator is never resumed. *)
Definition py_with_w {L A B} (cm : generator_cm L A) (body : A -> MW B)
  : MW B :=
  fun w =>
    match cm_before cm w with
    | (Raise e, w1) => Ended (Raise e) w1
    | (Return (locals, x), w1) =>
        match body x w1 with
        | Ended (Return b) w2 =>
            match cm_after cm locals w2 with
            | (Return _, w3) => Ended (Return b) w3
            | (Raise e, w3) => Ended (Raise e) w3
            end
        | Ended (Raise e) w2 => Ended (Raise e) w2
        | Blocked w2 => Blocked w2
        end
    end.

(** [with open(simple_path, 'rb') as f: return f.read()]. *)
Definition open_read (proc : child_run) : MW (list Byte.byte) :=
  match proc with
  | Opens c =>
      ended (match pipe_read c with
             | Return b => ret b
             | Raise e => raise e
             end)
  | NeverOpens _ => fun w => Blocked w
  end.

Section PipelineFifo.

Context {num : Type}.
Variable num_mul : num -> num -> num.
Variable num_add : num -> num -> num.
Variable to_float : num -> spec_float.
Context {V : Type}.
Variable march :
  ndarray V -> nat ->
  list (num * num * num) * list (num * num * num) * list (Z * Z * Z).
Context {Ratio : Type}.
Variable str_ratio : Ratio -> string.

(** The [fq-mesh-simplify] executable, with the runs in which it never
    opens the response pipe. *)
Variable fq_mesh_simplify_run : string -> list Byte.byte -> child_run.

Definition Popen_fifo (cmd : string) (written : list Byte.byte)
  : MW child_run :=
  fun w =>
    Ended (Return (fq_mesh_simplify_run cmd written))
      (mkWorld (fs w) (cmd :: spawned w)).

(** [simplify_mesh] again, with the wait of [open(simple_path, 'rb')]. *)
Definition simplify_mesh_fifo (mesh_obj_stream : pyobj)
  (simplify_ratio : Ratio) : MW (list Byte.byte) :=
  match mesh_obj_stream with
  | PyStr _ =>
      ended (raise (AssertionError
                      (Some "mesh_obj_stream must be bytes or BytesIO")))
  | _ =>
      let mesh_obj_stream :=
        match mesh_obj_stream with
        | PyBytes b => PyBytesIO (BytesIO_new b)
        | o => o
        end in
      match mesh_obj_stream with
      | PyBytesIO stream =>
          py_with_w (temp_pipe "mesh.obj") (fun mesh_path =>
          py_with_w (temp_pipe "simple.obj") (fun simple_path =>
            let written := (bio_read stream).1 in
            let cmd :=
              simplify_command str_ratio mesh_path simple_path simplify_ratio in
            wbind (Popen_fifo cmd written) (fun proc =>
            try_finally_w
              (open_read proc)
              (if exit_code proc =? 0 then ret tt
               else raise (RuntimeError
                             (error_code_message (exit_code proc)))))))
      | _ => ended (raise (AssertionError None))
      end
  end.


End PipelineFifo.

(* ===================================================================== *)
(** ** Predicates used in the statements, and sample inputs *)
(* ===================================================================== *)

(** A voxel of the volume with a label above zero. *)
Definition foreground (a : ndarray Z) (i j k : nat) : Prop :=
  in_shape (shape a) i j k /\ 0 < item a i j k.

Definition inside (box : bbox) (i j k : nat) : Prop :=
  lo0 box <= Z.of_nat i < hi0 box /\
  lo1 box <= Z.of_nat j < hi1 box /\
  lo2 box <= Z.of_nat k < hi2 box.

(** The box holds every foreground voxel, and on each axis its lower bound
    and its upper bound minus one are indices of foreground voxels. *)
Definition tight_box (a : ndarray Z) (box : bbox) : Prop :=
  (forall i j k, foreground a i j k -> inside box i j k) /\
  (exists i j k, foreground a i j k /\ Z.of_nat i = lo0 box) /\
  (exists i j k, foreground a i j k /\ Z.of_nat i = hi0 box - 1) /\
  (exists i j k, foreground a i j k /\ Z.of_nat j = lo1 box) /\
  (exists i j k, foreground a i j k /\ Z.of_nat j = hi1 box - 1) /\
  (exists i j k, foreground a i j k /\ Z.of_nat k = lo2 box) /\
  (exists i j k, foreground a i j k /\ Z.of_nat k = hi2 box - 1).

(** On the border of an array: first or last index on some axis. *)
Definition on_border (sh : nat * nat * nat) (i j k : nat) : Prop :=
  i = 0%nat \/ S i = sh.1.1 \/ j = 0%nat \/ S j = sh.1.2 \/
  k = 0%nat \/ S k = sh.2.

(** [blankImg] is [window] thresholded and wrapped in one layer of false
    voxels: two larger on each axis, the window at offset (1, 1, 1), and
    false on the whole border. *)
Definition padded_from (window : ndarray Z) (blankImg : ndarray bool) : Prop :=
  shape blankImg
    = ((shape window).1.1 + 2, (shape window).1.2 + 2, (shape window).2 + 2)%nat /\
  (forall i j k, in_shape (shape window) i j k ->
     item blankImg (S i) (S j) (S k) = (0 <? item window i j k)) /\
  (forall i j k, in_shape (shape blankImg) i j k ->
     on_border (shape blankImg) i j k -> item blankImg i j k = false).

(** The box lies inside an array of shape [sh]. *)
Definition box_within (sh : nat * nat * nat) (box : bbox) : Prop :=
  0 <= lo0 box <= hi0 box /\ hi0 box <= Z.of_nat sh.1.1 /\
  0 <= lo1 box <= hi1 box /\ hi1 box <= Z.of_nat sh.1.2 /\
  0 <= lo2 box <= hi2 box /\ hi2 box <= Z.of_nat sh.2.

(** A 3 x 3 x 3 volume whose only labelled voxel is the centre. *)
Definition centre_voxel : ndarray Z :=
  NDArray (3, 3, 3)%nat
    (fun i j k => if (i =? 1)%nat && (j =? 1)%nat && (k =? 1)%nat then 5 else 0).

(** A 2 x 2 x 2 volume without a label. *)
Definition blank_volume : ndarray Z :=
  NDArray (2, 2, 2)%nat (fun _ _ _ => 0).

(** Decimal digits. *)
Definition is_digit (c : ascii) : bool :=
  (48 <=? nat_of_ascii c)%nat && (nat_of_ascii c <=? 57)%nat.

Fixpoint all_digits (s : string) : bool :=
  match s with
  | EmptyString => true
  | String c r => is_digit c && all_digits r
  end.

Definition float_is_finite (x : spec_float) : bool :=
  match x with
  | S754_zero _ | S754_finite _ _ _ => true
  | S754_infinity _ | S754_nan => false
  end.

(** Text with exactly seven decimals: an optional minus sign, at least one
    digit, a point, seven digits. *)
Definition seven_decimals (t : string) : Prop :=
  exists (s : bool) (ip fp : string),
    t = sign_str s +:+ ip +:+ "." +:+ fp /\
    ip <> EmptyString /\ all_digits ip = true /\
    String.length fp = 7%nat /\ all_digits fp = true.

(** The position is at the end of the buffer. *)
Definition at_end (s : BytesIO) : Prop := tell s = length (getvalue s).

(** The face line as the specification words it: [f <i1> <i2> <i3>] and a
    newline. *)
Definition face_line_spec (f : Z * Z * Z) : string :=
  let '(v1, v2, v3) := f in
  "f " +:+ str_int v1 +:+ " " +:+ str_int v2 +:+ " " +:+ str_int v3 +:+ newline.

(** The OBJ text as the specification words it. *)
Definition obj_bytes_spec {num} (to_float : num -> spec_float)
  (vertices_xyz : list (num * num * num)) (faces : list (Z * Z * Z))
  : list Byte.byte :=
  encode_utf8 ("# OBJ file" +:+ newline)
  ++ flat_map (fun v => encode_utf8 (vertex_line to_float v)) vertices_xyz
  ++ flat_map (fun f => encode_utf8 (face_line_spec f)) faces.

(** Integers as vertex coordinates, for the examples. *)
Definition Z_to_float (z : Z) : spec_float :=
  match z with
  | Z0 => S754_zero false
  | Zpos p => S754_finite false p 0
  | Zneg p => S754_finite true p 0
  end.

(** A simplifier that copies its input and exits with the given code. *)
Definition copying_child (code : Z) (cmd : string) (written : list Byte.byte)
  : child :=
  Child (Return written) code.

Definition empty_world : World := mkWorld ∅ [].

(** A simplifier that exits with the given code and never opens the
    response pipe. *)
Definition silent_child (code : Z) (cmd : string) (written : list Byte.byte)
  : child_run :=
  NeverOpens code.

(** A simplifier that exits with code 0 while the parent's read of the
    response pipe raises [e]. *)
Definition unreadable_child (e : exn) (cmd : string)
  (written : list Byte.byte) : child :=
  Child (Raise e) 0.

(** The class name of an exception, [type(e).__name__]. *)
Definition exn_name (e : exn) : string :=
  match e with
  | ValueError _ => "ValueError"
  | IndexError _ => "IndexError"
  | AssertionError _ => "AssertionError"
  | RuntimeError _ => "RuntimeError"
  | FileExistsError => "FileExistsError"
  | FileNotFoundError => "FileNotFoundError"
  | OSError _ => "OSError"
  end.

(** The call fails with an error of the class called [name], as the
    specification words a failure. *)
Definition fails_with {A} (name : string) (r : result A) : Prop :=
  exists e, r = Raise e /\ exn_name e = name.

(** The values of numpy's [int64]. *)
Definition int64 (v : Z) : Prop := - 2 ^ 63 <= v < 2 ^ 63.

(** The values of an index array on which the arithmetic of
    [findBBDimensions] stays inside [int64], the element type of the
    arrays [np.where] returns: neither [max + 1] nor [max - min] wraps. *)
Definition int64_safe (l : list Z) : Prop :=
  Forall (fun v => - 2 ^ 62 <= v < 2 ^ 62) l.

(** A name that can be the last component of a path: not empty, not [.]
    or [..], at most 255 bytes, and without a slash or a NUL. *)
Definition entry_name (name : string) : bool :=
  negb (String.eqb name EmptyString) && negb (String.eqb name ".")
  && negb (String.eqb name "..")
  && (String.length name <=? 255)%nat
  && forallb (fun c => negb (Ascii.eqb c "/"%char) && negb (Ascii.eqb c "000"%char))
       (list_ascii_of_string name).

(** The arguments [simplify_mesh] lets past its assertions. *)
Definition accepted (o : pyobj) : bool :=
  match o with
  | PyBytes _ | PyBytesIO _ => true
  | PyStr _ | PyInt _ | PyNone => false
  end.

(** The bytes the writer thread copies into the request pipe: all of a
    [bytes] argument, and what lies after the position of a stream. *)
Definition payload (o : pyobj) : list Byte.byte :=
  match o with
  | PyBytes b => b
  | PyBytesIO s => (bio_read s).1
  | PyStr _ | PyInt _ | PyNone => []
  end.

(** The bytes of the text [# OBJ file] and a newline. *)
Definition header_bytes : list Byte.byte :=
  encode_utf8 ("# OBJ file" +:+ newline).

(* ===================================================================== *)
(** ** The batch driver: tags, legacy writers and [main] *)
(* ===================================================================== *)

(** [os.path.basename]: the text after the last slash, the whole path when
    it has none. *)
Fixpoint after_last_slash (p : string) : option string :=
  match p with
  | EmptyString => None
  | String c r =>
      match after_last_slash r with
      | Some b => Some b
      | None => if Ascii.eqb c "/"%char then Some r else None
      end
  end.

Definition basename (p : string) : string :=
  match after_last_slash p with
  | Some b => b
  | None => p
  end.

(** The slice [s[:-4]]: all but the last four characters, nothing when
    there are four or fewer. *)
Definition drop_last4 (s : string) : string :=
  substring 0 (String.length s - 4) s.

(** [sorted] on a list of strings. *)
Fixpoint insert_sorted (x : string) (l : list string) : list string :=
  match l with
  | [] => [x]
  | y :: r => if String.leb x y then x :: l else y :: insert_sorted x r
  end.

Definition py_sorted (l : list string) : list string :=
  fold_right insert_sorted [] l.

(** [x in l] for a list of strings. *)
Definition py_in (x : string) (l : list string) : bool :=
  existsb (String.eqb x) l.

(** What the batch functions do to the outside, in order: lines printed,
    files opened for writing (created or truncated), text written to an
    open file, command lines run through the shell. *)
Inductive event : Type :=
| Print (line : string)
| Open (file : string)
| Write (file : string) (data : string)
| Shell (cmd : string).

(** The batch functions also raise [KeyError]. *)
Inductive batch_exn : Type :=
| KeyError (key : string)
| Builtin (e : exn).

Inductive outcome (A : Type) : Type :=
| Done (a : A)
| Fail (e : batch_exn).
Arguments Done {A} a.
Arguments Fail {A} e.

(** A batch computation extends the trace of events so far, and returns or
    raises. *)
Definition Batch (A : Type) : Type := list event -> outcome A * list event.

Definition bret {A} (a : A) : Batch A := fun t => (Done a, t).
Definition bfail {A} (e : batch_exn) : Batch A := fun t => (Fail e, t).
Definition bbind {A B} (c : Batch A) (k : A -> Batch B) : Batch B :=
  fun t =>
    match c t with
    | (Done a, t') => k a t'
    | (Fail e, t') => (Fail e, t')
    end.
(** Something done to the outside.  Runs in which a [print], a write, a
    [close] or the call of the shell itself raises are not covered. *)
Definition emit (e : event) : Batch unit := fun t => (Done tt, t ++ [e]).
Definition lift {A} (r : result A) : Batch A :=
  match r with
  | Return a => bret a
  | Raise e => bfail (Builtin e)
  end.
(** A read of the outside, whose answer may depend on what was done so
    far. *)
Definition ask {A} (q : list event -> result A) : Batch A :=
  fun t => lift (q t) t.

Notation "'run!' x '<-' c ';' k" := (bbind c (fun x => k))
  (at level 10, x pattern, c at level 100, k at level 200) : py_scope.
Notation "c ';;;' k" := (bbind c (fun _ => k))
  (at level 100, k at level 200, right associativity) : py_scope.

(** The files opened and the commands run along a trace. *)
Definition opened (t : list event) : list string :=
  flat_map (fun e => match e with Open f => [f] | _ => [] end) t.

Definition shell_commands (t : list event) : list string :=
  flat_map (fun e => match e with Shell c => [c] | _ => [] end) t.

(** An entry of the tag dictionary: a tag value as read, or a float. *)
Inductive tagentry (val num : Type) : Type :=
| Raw (v : val)
| Flt (x : num).
Arguments Raw {val num} v.
Arguments Flt {val num} x.

Definition join (l : list string) : string :=
  fold_right String.append EmptyString l.

(** [argv[i]]. *)
Definition argv_get (argv : list string) (i : nat) : Batch string :=
  match argv !! i with
  | Some a => bret a
  | None => bfail (Builtin (IndexError "list index out of range"))
  end.

Section Batch.

(** Floats and array elements with their arithmetic, as for
    [mesh_from_array]; [zero] and [one] are the floats [0.0] and [1.0]. *)
Context {num : Type}.
Variable num_mul : num -> num -> num.
Variable num_add : num -> num -> num.
Variable to_float : num -> spec_float.
Variable zero one : num.

(** The values TIFF tags hold, and [float(v)] on them, which may raise. *)
Context {val : Type}.
Variable float_of_val : val -> result num.

Definition float_of_entry (e : tagentry val num) : result num :=
  match e with
  | Raw v => float_of_val v
  | Flt x => Return x
  end.

(** One round of the loop over the pages: a missing tag is a [KeyError]
    that is caught and changes nothing; a [float] that fails is not
    caught. *)
Definition getTagDictionary_page (tagDict : gmap string (tagentry val num))
  (page : gmap string val) : result (gmap string (tagentry val num)) :=
  let tagDict :=
    match page !! "31232" with
    | Some v => <["dvid_offset_x" := Raw v]> tagDict
    | None => tagDict
    end in
  let tagDict :=
    match page !! "31233" with
    | Some v => <["dvid_offset_y" := Raw v]> tagDict
    | None => tagDict
    end in
  let tagDict :=
    match page !! "31234" with
    | Some v => <["dvid_offset_z" := Raw v]> tagDict
    | None => tagDict
    end in
  match page !! "31235" with
  | Some v =>
      let! x := float_of_val v in
      Return (<["downsample_interval_x" := Flt (num_add x one)]> tagDict)
  | None => Return tagDict
  end.

Fixpoint getTagDictionary_loop (tagDict : gmap string (tagentry val num))
  (pages : list (gmap string val)) : result (gmap string (tagentry val num)) :=
  match pages with
  | [] => Return tagDict
  | page :: rest =>
      let! tagDict := getTagDictionary_page tagDict page in
      getTagDictionary_loop tagDict rest
  end.

(** [if key not in tagDict: tagDict[key] = x]. *)
Definition set_default (key : string) (x : tagentry val num)
  (tagDict : gmap string (tagentry val num)) : gmap string (tagentry val num) :=
  match tagDict !! key with
  | Some _ => tagDict
  | None => <[key := x]> tagDict
  end.

(** [getTagDictionary], on the tag tables of the pages of
    [tifffile.TiffFile(stack)]; [tif.pages[0]] needs a first page. *)
Definition getTagDictionary (pages : list (gmap string val))
  : result (gmap string (tagentry val num)) :=
  match pages with
  | [] => Raise (IndexError "list index out of range")
  | _ :: _ =>
      let! tagDict := getTagDictionary_loop ∅ pages in
      let tagDict := set_default "downsample_interval_x" (Flt one) tagDict in
      let tagDict := set_default "dvid_offset_x" (Flt zero) tagDict in
      let tagDict := set_default "dvid_offset_y" (Flt zero) tagDict in
      let tagDict := set_default "dvid_offset_z" (Flt zero) tagDict in
      Return tagDict
  end.

(** [tags[key]]. *)
Definition dict_get (tags : gmap string (tagentry val num)) (key : string)
  : Batch (tagentry val num) :=
  match tags !! key with
  | Some e => bret e
  | None => bfail (KeyError key)
  end.

(** The outside the batch functions read: the pages of a TIFF file, and
    whether a file can be opened for writing. *)
Variable tiff_pages : list event -> string -> result (list (gmap string val)).
Variable open_w : list event -> string -> result unit.

(** [marching_cubes.march]. *)
Variable march :
  ndarray Z -> nat ->
  list (num * num * num) * list (num * num * num) * list (Z * Z * Z).

Context {Ratio : Type}.
Variable str_ratio : Ratio -> string.

(** ["v %.3f %.3f %.3f \n"] on the offset and scaled coordinates. *)
Definition legacy_vertex_line (xOffset yOffset zOffset downsampleFactor : num)
  (i : num * num * num) : string :=
  let '(i0, i1, i2) := i in
  "v " +:+ format_f 3 (to_float (num_mul (num_add xOffset i0) downsampleFactor))
  +:+ " " +:+ format_f 3 (to_float (num_mul (num_add yOffset i1) downsampleFactor))
  +:+ " " +:+ format_f 3 (to_float (num_mul (num_add zOffset i2) downsampleFactor))
  +:+ " " +:+ newline.

(** ["f %d %d %d \n" % (face[2]+1, face[1]+1, face[0]+1)]. *)
Definition legacy_face_line (face : Z * Z * Z) : string :=
  let '(f0, f1, f2) := face in
  "f " +:+ str_int (f2 + 1) +:+ " " +:+ str_int (f1 + 1) +:+ " "
  +:+ str_int (f0 + 1) +:+ " " +:+ newline.

Definition calcMesh (stackname : string) (labelStack : ndarray Z)
  (location : string) (simplify_ratio : Ratio) : Batch unit :=
  run! pages <- ask (fun t => tiff_pages t stackname);
  run! tags <- lift (getTagDictionary pages);
  run! e <- dict_get tags "downsample_interval_x";
  run! downsampleFactor <- lift (float_of_entry e);
  run! e <- dict_get tags "dvid_offset_x";
  run! xOffset <- lift (float_of_entry e);
  run! e <- dict_get tags "dvid_offset_y";
  run! yOffset <- lift (float_of_entry e);
  run! e <- dict_get tags "dvid_offset_z";
  run! zOffset <- lift (float_of_entry e);
  let labelStack := transpose labelStack in
  emit (Print "Building mesh...");;;
  let '(vertices, normals, faces) := march labelStack 3 in
  emit (Print "preparing vertices and faces...");;;
  let vertStrings :=
    map (legacy_vertex_line xOffset yOffset zOffset downsampleFactor) vertices in
  let faceStrings := map legacy_face_line faces in
  let file := location +:+ basename stackname +:+ ".obj" in
  ask (fun t => open_w t file);;;
  emit (Open file);;;
  emit (Write file ("# OBJ file" +:+ newline));;;
  emit (Print "writing vertices...");;;
  emit (Write file (join vertStrings));;;
  emit (Print "writing faces...");;;
  emit (Write file (join faceStrings));;;
  emit (Print "Decimating Mesh...");;;
  let input_path := "./" +:+ location +:+ basename stackname +:+ ".obj" in
  let output_path :=
    "./" +:+ location +:+ basename stackname +:+ ".smooth.obj" in
  let cmd :=
    "fq-mesh-simplify " +:+ dquote +:+ input_path +:+ dquote +:+ " "
    +:+ dquote +:+ output_path +:+ dquote +:+ " " +:+ str_ratio simplify_ratio in
  emit (Print cmd);;;
  emit (Shell cmd).

Definition calcMeshWithOffsets (stackname : string) (labelStack : ndarray Z)
  (location : string) (simplify : Ratio) : Batch unit :=
  run! pages <- ask (fun t => tiff_pages t stackname);
  run! tags <- lift (getTagDictionary pages);
  run! e <- dict_get tags "downsample_interval_x";
  run! downsampleFactor <- lift (float_of_entry e);
  run! e <- dict_get tags "dvid_offset_x";
  run! xOffset <- lift (float_of_entry e);
  run! e <- dict_get tags "dvid_offset_y";
  run! yOffset <- lift (float_of_entry e);
  run! e <- dict_get tags "dvid_offset_z";
  run! zOffset <- lift (float_of_entry e);
  let labelStack := transpose labelStack in
  emit (Print "Building mesh...");;;
  let '(vertices, normals, faces) := march labelStack 3 in
  emit (Print "preparing vertices and faces...");;;
  let vertStrings :=
    map (legacy_vertex_line xOffset yOffset zOffset downsampleFactor) vertices in
  let faceStrings := map legacy_face_line faces in
  let file := location +:+ basename stackname +:+ ".obj" in
  ask (fun t => open_w t file);;;
  emit (Open file);;;
  emit (Write file ("# OBJ file" +:+ newline));;;
  emit (Print "writing vertices...");;;
  emit (Write file (join vertStrings));;;
  emit (Print "writing faces...");;;
  emit (Write file (join faceStrings));;;
  emit (Print "Decimating Mesh...");;;
  let s :=
    "fq-mesh-simplify" +:+ " ./" +:+ location +:+ basename stackname
    +:+ ".obj ./" +:+ location +:+ basename stackname +:+ ".smooth.obj "
    +:+ str_ratio simplify in
  emit (Print s);;;
  emit (Shell s).

End Batch.

Section Main.

Context {num : Type}.
Variable num_mul : num -> num -> num.
Variable num_add : num -> num -> num.
Variable to_float : num -> spec_float.
Variable zero one : num.
Context {val : Type}.
Variable float_of_val : val -> result num.
Variable tiff_pages : list event -> string -> result (list (gmap string val)).
Variable open_w : list event -> string -> result unit.
Variable march :
  ndarray Z -> nat ->
  list (num * num * num) * list (num * num * num) * list (Z * Z * Z).

(** [glob.glob(pattern)] and [tifffile.imread(stack)]. *)
Variable glob : list event -> string -> list string.
Variable imread : list event -> string -> result (ndarray Z).

(** The loop of [main] over [enumerate(labelsPaths)], from index [ii] on;
    [total] is [len(labelsPaths)].  The ratio is the string [sys.argv[3]],
    which an f-string inserts as it is. *)
Fixpoint main_loop (alreadyDone : list string) (meshes simplify : string)
  (total : nat) (ii : nat) (stacks : list string) : Batch unit :=
  match stacks with
  | [] => bret tt
  | stack :: rest =>
      (if py_in (basename stack) alreadyDone then
         emit (Print "Detected already processed file. Skipping.");;;
         emit (Print "[Delete file in output folder to reprocess.]")
       else
         emit (Print ("Starting " +:+ stack));;;
         run! labelStack <- ask (fun t => imread t stack);
         emit (Print ("Loaded data stack " +:+ str_int (Z.of_nat ii) +:+ "/"
                      +:+ str_int (Z.of_nat total)));;;
         emit (Print "Thresholding...");;;
         calcMesh num_mul num_add to_float zero one float_of_val tiff_pages
           open_w march (fun r : string => r) stack labelStack meshes simplify);;;
      main_loop alreadyDone meshes simplify total (S ii) rest
  end.

Definition main (argv : list string) : Batch unit :=
  run! meshes <- argv_get argv 2;
  run! simplify <- argv_get argv 3;
  run! alreadyDone <- (fun t => (Done (glob t (meshes +:+ "*.obj")), t));
  let alreadyDone := map (fun i => drop_last4 (basename i)) alreadyDone in
  run! labelsFolderPath <- argv_get argv 1;
  run! labelsPaths <- (fun t => (Done (glob t (labelsFolderPath +:+ "*")), t));
  let labelsPaths := py_sorted labelsPaths in
  main_loop alreadyDone meshes simplify (length labelsPaths) 0 labelsPaths.

End Main.

(** The value of tag [code] on the last page that has it. *)
Definition last_tag {val} (code : string) (pages : list (gmap string val))
  : option val :=
  last (omap (fun page : gmap string val => page !! code) pages).

(** The four keys of a tag dictionary. *)
Definition tag_keys : gset string :=
  {["downsample_interval_x"; "dvid_offset_x"; "dvid_offset_y"; "dvid_offset_z"]}.

(** The events of a trace that touch files. *)
Definition file_events (t : list event) : list event :=
  List.filter
    (fun e => match e with Open _ | Write _ _ => true | _ => false end) t.

(** The OBJ file [calcMesh] writes for a stack. *)
Definition mesh_file (location stack : string) : string :=
  location +:+ basename stack +:+ ".obj".

(** The command line [calcMesh] runs for a stack, with the text of the
    ratio as [main] passes it on. *)
Definition legacy_command (location simplify stack : string) : string :=
  "fq-mesh-simplify " +:+ dquote
  +:+ ("./" +:+ mesh_file location stack) +:+ dquote +:+ " "
  +:+ dquote +:+ ("./" +:+ location +:+ basename stack +:+ ".smooth.obj")
  +:+ dquote +:+ " " +:+ simplify.

(** Three pages with integer tag values: an x offset on the first, an x
    offset and a downsampling interval on the second, nothing on the
    third. *)
Definition sample_pages : list (gmap string Z) :=
  [ {["31232" := 5]}; <["31235" := 1]> {["31232" := 7]}; ∅ ].

Definition sample_tags : gmap string (tagentry Z Z) :=
  <["downsample_interval_x" := Flt 2]>
    (<["dvid_offset_x" := Raw 7]>
       (<["dvid_offset_y" := Flt 0]> {["dvid_offset_z" := Flt 0]})).

(** An outside for the examples: every TIFF file has the sample pages and
    holds the centre-voxel volume, every file can be opened, the output
    folder lists the mesh of [a.tif] and its simplified copy, the label
    folder lists [b.tif] and [a.tif], and [march] returns one vertex and
    one face. *)
Definition sample_tiff_pages (t : list event) (stack : string)
  : result (list (gmap string Z)) :=
  Return sample_pages.

Definition sample_open_w (t : list event) (file : string) : result unit :=
  Return tt.

Definition sample_march (volume : ndarray Z) (smoothing_rounds : nat)
  : list (Z * Z * Z) * list (Z * Z * Z) * list (Z * Z * Z) :=
  ([(1, 2, 3)], [], [(0, 1, 2)]).

Definition sample_glob (t : list event) (pattern : string) : list string :=
  if String.eqb pattern "out/*.obj"
  then ["out/a.tif.obj"; "out/a.tif.smooth.obj"]
  else ["in/b.tif"; "in/a.tif"].

Definition sample_imread (t : list event) (stack : string)
  : result (ndarray Z) :=
  Return centre_voxel.

Definition sample_argv : list string := ["vol2mesh.py"; "in/"; "out/"; "0.2"].

(** The number of newline bytes in a byte string: its number of lines when
    every line is ended by one. *)
Definition count_newlines (l : list Byte.byte) : nat :=
  length (List.filter (Byte.eqb Byte.x0a) l).

(** Text without a newline character. *)
Fixpoint newline_free (s : string) : bool :=
  match s with
  | EmptyString => true
  | String c r => negb (Ascii.eqb c "010"%char) && newline_free r
  end.

(* ===================================================================== *)
(** * Properties *)
(* ===================================================================== *)

(** ** Index enumeration *)

Lemma in_indices sh i j k : In (i, j, k) (indices sh) <-> in_shape sh i j k.
Proof.
  destruct sh as [[d0 d1] d2]. unfold indices, in_shape. simpl.
  rewrite in_flat_map. split.
  - intros (i' & Hi & H). apply in_flat_map in H as (j' & Hj & H).
    apply in_map_iff in H as (k' & Heq & Hk).
    inversion Heq; subst. apply in_seq in Hi, Hj, Hk. lia.
  - intros (Hi & Hj & Hk). exists i. split; [apply in_seq; lia|].
    apply in_flat_map. exists j. split; [apply in_seq; lia|].
    apply in_map_iff. exists k. split; [reflexivity|apply in_seq; lia].
Qed.

Lemma in_where_coords mask i j k :
  In (i, j, k) (where_coords mask) <->
  in_shape (shape mask) i j k /\ item mask i j k = true.
Proof.
  unfold where_coords. rewrite filter_In, in_indices. reflexivity.
Qed.

Lemma in_where_gt0 a i j k :
  In (i, j, k) (where_coords (gt0 a)) <-> foreground a i j k.
Proof.
  rewrite in_where_coords. unfold foreground. simpl.
  rewrite Z.ltb_lt. reflexivity.
Qed.

(** ** [min] and [max] *)

Lemma fold_min_spec r x :
  In (fold_left Z.min r x) (x :: r) /\
  forall y, In y (x :: r) -> fold_left Z.min r x <= y.
Proof.
  revert x. induction r as [|a r IH]; intros x; simpl.
  - split; [tauto|]. intros y [->|[]]. lia.
  - destruct (IH (Z.min x a)) as [Hin Hle]. split.
    + destruct Hin as [Heq|Hin]; [|tauto].
      rewrite <- Heq. destruct (Z.min_spec x a) as [[_ ->]|[_ ->]]; tauto.
    + intros y Hy.
      assert (fold_left Z.min r (Z.min x a) <= Z.min x a) by (apply Hle; left; reflexivity).
      destruct Hy as [->|[->|Hy]]; [lia|lia|]. apply Hle. right. exact Hy.
Qed.

Lemma fold_max_spec r x :
  In (fold_left Z.max r x) (x :: r) /\
  forall y, In y (x :: r) -> y <= fold_left Z.max r x.
Proof.
  revert x. induction r as [|a r IH]; intros x; simpl.
  - split; [tauto|]. intros y [->|[]]. lia.
  - destruct (IH (Z.max x a)) as [Hin Hle]. split.
    + destruct Hin as [Heq|Hin]; [|tauto].
      rewrite <- Heq. destruct (Z.max_spec x a) as [[_ ->]|[_ ->]]; tauto.
    + intros y Hy.
      assert (Z.max x a <= fold_left Z.max r (Z.max x a)) by (apply Hle; left; reflexivity).
      destruct Hy as [->|[->|Hy]]; [lia|lia|]. apply Hle. right. exact Hy.
Qed.

(** On a non-empty index array, [min] and [max] return an attained bound. *)
Lemma py_min_map {C} (f : C -> Z) (cs : list C) :
  cs <> [] ->
  exists m, py_min (map f cs) = Return m /\
            (exists c, In c cs /\ f c = m) /\
            (forall c, In c cs -> m <= f c).
Proof.
  destruct cs as [|c cs]; [congruence|]. intros _. simpl.
  destruct (fold_min_spec (map f cs) (f c)) as [Hin Hle].
  eexists. split; [reflexivity|]. split.
  - change (f c :: map f cs) with (map f (c :: cs)) in Hin.
    apply in_map_iff in Hin as (c' & Heq & Hc'). eauto.
  - intros c' Hc'. apply Hle.
    change (f c :: map f cs) with (map f (c :: cs)). apply in_map. exact Hc'.
Qed.

Lemma py_max_map {C} (f : C -> Z) (cs : list C) :
  cs <> [] ->
  exists m, py_max (map f cs) = Return m /\
            (exists c, In c cs /\ f c = m) /\
            (forall c, In c cs -> f c <= m).
Proof.
  destruct cs as [|c cs]; [congruence|]. intros _. simpl.
  destruct (fold_max_spec (map f cs) (f c)) as [Hin Hle].
  eexists. split; [reflexivity|]. split.
  - change (f c :: map f cs) with (map f (c :: cs)) in Hin.
    apply in_map_iff in Hin as (c' & Heq & Hc'). eauto.
  - intros c' Hc'. apply Hle.
    change (f c :: map f cs) with (map f (c :: cs)). apply in_map. exact Hc'.
Qed.

(** ** Bounding box *)

(** The box of a non-empty coordinate list: what [findBBDimensions] returns
    on the index arrays of [cs], and how its fields sit against [cs]. *)
Lemma findBBDimensions_coords (cs : list (nat * nat * nat)) :
  cs <> [] ->
  exists box dims,
    findBBDimensions
      (map (fun c => Z.of_nat c.1.1) cs,
       map (fun c => Z.of_nat c.1.2) cs,
       map (fun c => Z.of_nat c.2) cs) = Return (box, dims) /\
    dims = (hi0 box - 1 - lo0 box, hi1 box - 1 - lo1 box, hi2 box - 1 - lo2 box) /\
    (forall c, In c cs -> inside box c.1.1 c.1.2 c.2) /\
    (exists c, In c cs /\ Z.of_nat c.1.1 = lo0 box) /\
    (exists c, In c cs /\ Z.of_nat c.1.1 = hi0 box - 1) /\
    (exists c, In c cs /\ Z.of_nat c.1.2 = lo1 box) /\
    (exists c, In c cs /\ Z.of_nat c.1.2 = hi1 box - 1) /\
    (exists c, In c cs /\ Z.of_nat c.2 = lo2 box) /\
    (exists c, In c cs /\ Z.of_nat c.2 = hi2 box - 1).
Proof.
  intros Hne. unfold findBBDimensions. cbn [fst snd].
  destruct (py_min_map (fun c : nat * nat * nat => Z.of_nat c.1.1) cs Hne)
    as (m0 & -> & A0 & L0).
  destruct (py_max_map (fun c : nat * nat * nat => Z.of_nat c.1.1) cs Hne)
    as (M0 & -> & B0 & U0).
  destruct (py_min_map (fun c : nat * nat * nat => Z.of_nat c.1.2) cs Hne)
    as (m1 & -> & A1 & L1).
  destruct (py_max_map (fun c : nat * nat * nat => Z.of_nat c.1.2) cs Hne)
    as (M1 & -> & B1 & U1).
  destruct (py_min_map (fun c : nat * nat * nat => Z.of_nat c.2) cs Hne)
    as (m2 & -> & A2 & L2).
  destruct (py_max_map (fun c : nat * nat * nat => Z.of_nat c.2) cs Hne)
    as (M2 & -> & B2 & U2).
  cbn [rbind]. eexists _, _. split; [reflexivity|]. cbn [lo0 hi0 lo1 hi1 lo2 hi2].
  split; [f_equal; [f_equal|]; lia|].
  split.
  { intros c Hc. unfold inside. cbn [lo0 hi0 lo1 hi1 lo2 hi2].
    specialize (L0 c Hc). specialize (U0 c Hc). specialize (L1 c Hc).
    specialize (U1 c Hc). specialize (L2 c Hc). specialize (U2 c Hc).
    cbn beta in *. lia. }
  repeat split; first
    [ exact A0 | exact A1 | exact A2
    | destruct B0 as (c & ? & ?); exists c; split; [assumption|lia]
    | destruct B1 as (c & ? & ?); exists c; split; [assumption|lia]
    | destruct B2 as (c & ? & ?); exists c; split; [assumption|lia] ].
Qed.

Local Ltac face_voxel :=
  match goal with
  | F : exists c, In c _ /\ ?t = ?b |- exists i j k, _ /\ _ = ?b =>
      let a := fresh in let b := fresh in let c := fresh in
      let Hc := fresh in let E := fresh in
      destruct F as ([[a b] c] & Hc & E);
      exists a, b, c; split; [apply in_where_gt0; exact Hc|exact E]
  end.

(** C4.  For a volume with at least one voxel above zero,
    [findBBDimensions] on the foreground indices returns a box that holds
    every foreground voxel with exclusive upper bounds, and each of its six
    faces touches a foreground voxel: the lower bound of an axis and the
    upper bound minus one are both indices of a foreground voxel, so no
    face can move inwards without losing one. *)
Theorem findBBDimensions_minimal_box (labelStack : ndarray Z) :
  (exists i j k, foreground labelStack i j k) ->
  exists box dims,
    findBBDimensions (np_where (gt0 labelStack)) = Return (box, dims) /\
    tight_box labelStack box.
Proof.
  unfold tight_box.
  intros (i & j & k & Hfg).
  assert (Hne : where_coords (gt0 labelStack) <> []).
  { apply in_where_gt0 in Hfg. intros E. rewrite E in Hfg. destruct Hfg. }
  destruct (findBBDimensions_coords _ Hne)
    as (box & dims & Heq & _ & Hin & F).
  exists box, dims. split; [exact Heq|]. split.
  { intros i' j' k' H'. apply in_where_gt0 in H'. exact (Hin _ H'). }
  destruct F as (F1 & F2 & F3 & F4 & F5 & F6).
  repeat split; face_voxel.
Qed.

Lemma findBBDimensions_minimal_box_witness :
  exists box dims,
    findBBDimensions (np_where (gt0 centre_voxel)) = Return (box, dims) /\
    tight_box centre_voxel box.
Proof.
  apply (findBBDimensions_minimal_box centre_voxel).
  exists 1%nat, 1%nat, 1%nat. unfold foreground, in_shape. simpl. lia.
Defined.

(** C5, as the code has it.  The second value of [findBBDimensions] is, on
    each axis, the largest index minus the smallest one: the exclusive
    upper bound of the box minus its lower bound, minus one. *)
Theorem findBBDimensions_dims_span
  (listOfPixels : list Z * list Z * list Z) (box : bbox) (dims : Z * Z * Z) :
  findBBDimensions listOfPixels = Return (box, dims) ->
  dims = (hi0 box - lo0 box - 1, hi1 box - lo1 box - 1, hi2 box - lo2 box - 1).
Proof.
  unfold findBBDimensions.
  destruct (py_min listOfPixels.1.1); [|discriminate].
  destruct (py_max listOfPixels.1.1); [|discriminate].
  destruct (py_min listOfPixels.1.2); [|discriminate].
  destruct (py_max listOfPixels.1.2); [|discriminate].
  destruct (py_min listOfPixels.2); [|discriminate].
  destruct (py_max listOfPixels.2); [|discriminate].
  cbn [rbind]. intros H. inversion H; subst. cbn [lo0 hi0 lo1 hi1 lo2 hi2].
  f_equal; [f_equal|]; lia.
Qed.

Lemma findBBDimensions_dims_span_witness :
  findBBDimensions (np_where (gt0 centre_voxel))
    = Return (BBox 1 2 1 2 1 2, (0, 0, 0)) /\
  (0, 0, 0) = (2 - 1 - 1, 2 - 1 - 1, 2 - 1 - 1).
Proof.
  split; [reflexivity|].
  apply (findBBDimensions_dims_span (np_where (gt0 centre_voxel))
           (BBox 1 2 1 2 1 2) (0, 0, 0)).
  reflexivity.
Defined.

(** C5, as the claim words it, fails: for the single centre voxel the box
    is [1, 2) on every axis, of extent one, and the second value is zero. *)
Lemma findBBDimensions_dims_not_extent :
  exists box dims,
    findBBDimensions (np_where (gt0 centre_voxel)) = Return (box, dims) /\
    dims <> (hi0 box - lo0 box, hi1 box - lo1 box, hi2 box - lo2 box).
Proof.
  exists (BBox 1 2 1 2 1 2), (0, 0, 0). split; [reflexivity|].
  cbn [lo0 hi0 lo1 hi1 lo2 hi2]. intros H. inversion H.
Qed.

(** C6, amended.  For a volume without a voxel above zero the index arrays
    are empty, the first [min] raises the builtin [ValueError] with the
    message of [min] on an empty sequence, and neither [findBBDimensions]
    nor the crop that follows it in [calcMeshWithCrop] produces a box or a
    volume. *)
Theorem findBBDimensions_empty_volume (labelStack : ndarray Z) :
  (forall i j k, in_shape (shape labelStack) i j k -> item labelStack i j k <= 0) ->
  findBBDimensions (np_where (gt0 labelStack))
    = Raise (ValueError "min() arg is an empty sequence") /\
  calcMeshWithCrop_blankImg labelStack
    = Raise (ValueError "min() arg is an empty sequence").
Proof.
  intros Hzero.
  assert (Hnil : where_coords (gt0 labelStack) = []).
  { destruct (where_coords (gt0 labelStack)) as [|[[i j] k] cs] eqn:E; [reflexivity|].
    assert (Hin : In (i, j, k) (where_coords (gt0 labelStack)))
      by (rewrite E; left; reflexivity).
    apply in_where_gt0 in Hin as [Hs Hpos]. specialize (Hzero i j k Hs). lia. }
  unfold calcMeshWithCrop_blankImg, np_where. rewrite Hnil. split; reflexivity.
Qed.

Lemma findBBDimensions_empty_volume_witness :
  findBBDimensions (np_where (gt0 blank_volume))
    = Raise (ValueError "min() arg is an empty sequence") /\
  calcMeshWithCrop_blankImg blank_volume
    = Raise (ValueError "min() arg is an empty sequence").
Proof.
  apply (findBBDimensions_empty_volume blank_volume).
  intros i j k _. simpl. lia.
Defined.

(** C6, as worded, fails on the blank 2 x 2 x 2 volume: the error
    [findBBDimensions] raises there is not of a class called
    [EmptyVolumeError]. *)
Lemma findBBDimensions_empty_not_EmptyVolumeError :
  ~ fails_with "EmptyVolumeError"
      (findBBDimensions (np_where (gt0 blank_volume))).
Proof.
  intros (e & He & Hname).
  cbv in He. injection He as <-. discriminate Hname.
Qed.

(** What it fails with there is a [ValueError]. *)
Example findBBDimensions_empty_ValueError :
  fails_with "ValueError" (findBBDimensions (np_where (gt0 blank_volume))).
Proof. eexists. split; reflexivity. Qed.

(** ** Crop and pad *)

Lemma norm_index_succ d i :
  (S i < d)%nat -> norm_index d (Z.of_nat i + 1) = Some (S i).
Proof.
  intros H. unfold norm_index.
  replace (0 <=? Z.of_nat i + 1) with true by (symmetry; apply Z.leb_le; lia).
  replace (Z.of_nat i + 1 <? Z.of_nat d) with true by (symmetry; apply Z.ltb_lt; lia).
  cbn [andb]. f_equal. lia.
Qed.

(** Setting [v] at the coordinates of [cs], each moved by one on every
    axis: the shape stays, and exactly the moved coordinates change. *)
Lemma setitem_fancy_coords {A} (cs : list (nat * nat * nat)) (a : ndarray A) (v : A) :
  (forall c, In c cs -> in_shape (shape a) (S c.1.1) (S c.1.2) (S c.2)) ->
  exists a',
    setitem_fancy a
      (map (fun i => i + 1) (map (fun c => Z.of_nat c.1.1) cs))
      (map (fun i => i + 1) (map (fun c => Z.of_nat c.1.2) cs))
      (map (fun i => i + 1) (map (fun c => Z.of_nat c.2) cs)) v = Return a' /\
    shape a' = shape a /\
    forall i j k,
      item a' i j k =
      if existsb (fun c => (i =? S c.1.1)%nat && (j =? S c.1.2)%nat && (k =? S c.2)%nat) cs
      then v else item a i j k.
Proof.
  revert a. induction cs as [|[[ci cj] ck] cs IH]; intros a Hin.
  - exists a. repeat split.
  - cbn [map setitem_fancy fst snd].
    destruct (shape a) as [[d0 d1] d2] eqn:Hsh.
    assert (Hc : in_shape (d0, d1, d2) (S ci) (S cj) (S ck)).
    { apply (Hin (ci, cj, ck)). left. reflexivity. }
    destruct Hc as (H0 & H1 & H2). cbn [fst snd] in H0, H1, H2.
    rewrite !norm_index_succ by assumption.
    destruct (IH (setitem a (S ci) (S cj) (S ck) v)) as (a' & Heq & Hs & Hitem).
    { intros c Hc. cbn [setitem shape]. rewrite Hsh. apply Hin. right. exact Hc. }
    exists a'. split; [exact Heq|]. split; [rewrite Hs; cbn [setitem shape]; congruence|].
    intros i j k. rewrite Hitem. cbn [existsb setitem item fst snd].
    destruct (existsb _ cs); [rewrite orb_true_r; reflexivity|].
    rewrite orb_false_r. reflexivity.
Qed.

Lemma slice_range_within d lo hi :
  0 <= lo <= hi -> hi <= Z.of_nat d ->
  slice_range d lo hi = (Z.to_nat lo, Z.to_nat (hi - lo)).
Proof.
  intros H1 H2. unfold slice_range, slice_index.
  replace (lo <? 0) with false by (symmetry; apply Z.ltb_ge; lia).
  replace (hi <? 0) with false by (symmetry; apply Z.ltb_ge; lia).
  rewrite !Z.min_l by lia. reflexivity.
Qed.

(** The window of a box inside the array has the extents of the box. *)
Lemma crop_shape_within {A} (a : ndarray A) (box : bbox) :
  box_within (shape a) box ->
  shape (crop a box)
    = (Z.to_nat (hi0 box - lo0 box), Z.to_nat (hi1 box - lo1 box),
       Z.to_nat (hi2 box - lo2 box)).
Proof.
  unfold box_within, crop. destruct (shape a) as [[d0 d1] d2]. cbn [fst snd].
  intros (A0 & B0 & A1 & B1 & A2 & B2).
  rewrite !slice_range_within by assumption. reflexivity.
Qed.

(** The crop/pad lines return for every volume and box, and what they
    return is the thresholded window in one layer of false voxels. *)
Lemma crop_and_pad_padded (labelStack : ndarray Z) (box : bbox) :
  exists blankImg,
    crop_and_pad labelStack box = Return blankImg /\
    padded_from (crop labelStack box) blankImg /\
    (box_within (shape labelStack) box ->
     shape blankImg
       = (Z.to_nat (hi0 box - lo0 box) + 2, Z.to_nat (hi1 box - lo1 box) + 2,
          Z.to_nat (hi2 box - lo2 box) + 2)%nat).
Proof.
  unfold crop_and_pad, np_where. cbn [fst snd].
  set (window := crop labelStack box).
  destruct (shape window) as [[w0 w1] w2] eqn:Hw.
  set (cs := where_coords (gt0 window)).
  assert (Hcs : forall i j k, In (i, j, k) cs <-> foreground window i j k)
    by (intros; apply in_where_gt0).
  destruct (setitem_fancy_coords cs (np_zeros (w0 + 2, w1 + 2, w2 + 2)%nat) true)
    as (img & Heq & Hs & Hitem).
  { intros [[i j] k] Hc. apply Hcs in Hc as [Hc _]. rewrite Hw in Hc.
    unfold in_shape in *. cbn [np_zeros shape fst snd] in *. lia. }
  exists img. split; [exact Heq|]. cbn [np_zeros shape item] in Hs, Hitem.
  assert (Hpad : padded_from window img).
  { unfold padded_from. rewrite Hs, Hw. cbn [fst snd]. split; [reflexivity|]. split.
    - intros i j k Hin. rewrite Hitem.
      destruct (0 <? item window i j k) eqn:Hpos.
      + replace (existsb _ cs) with true; [reflexivity|].
        symmetry. apply existsb_exists. exists (i, j, k). split.
        * apply Hcs. split; [rewrite Hw; exact Hin|]. apply Z.ltb_lt. exact Hpos.
        * cbn [fst snd]. rewrite !Nat.eqb_refl. reflexivity.
      + destruct (existsb _ cs) eqn:Hex; [|reflexivity].
        apply existsb_exists in Hex as ([[ci cj] ck] & Hc & Hm).
        cbn [fst snd] in Hm. apply andb_prop in Hm as [Hm Hk].
        apply andb_prop in Hm as [Hi Hj].
        apply Nat.eqb_eq in Hi, Hj, Hk.
        assert (ci = i) by lia. assert (cj = j) by lia. assert (ck = k) by lia.
        subst. apply Hcs in Hc as [_ Hc]. apply Z.ltb_ge in Hpos. lia.
    - intros i j k _ Hb. rewrite Hitem.
      destruct (existsb _ cs) eqn:Hex; [|reflexivity].
      apply existsb_exists in Hex as ([[ci cj] ck] & Hc & Hm).
      cbn [fst snd] in Hm. apply andb_prop in Hm as [Hm Hk].
      apply andb_prop in Hm as [Hi Hj].
      apply Nat.eqb_eq in Hi, Hj, Hk.
      apply Hcs in Hc as [Hc _]. rewrite Hw in Hc.
      unfold in_shape, on_border in *. cbn [fst snd] in *. lia. }
  split; [exact Hpad|].
  intros Hin. destruct Hpad as [-> _].
  unfold window. rewrite (crop_shape_within _ _ Hin). reflexivity.
Qed.

(** The window read back through the slices: on each axis it has the
    length of the slice [lo:hi], and its voxel (i, j, k) is the voxel of
    the array that many places after the starts of the slices. *)
Lemma crop_slices {A} (a : ndarray A) (box : bbox) :
  shape (crop a box)
    = ((slice_range (shape a).1.1 (lo0 box) (hi0 box)).2,
       (slice_range (shape a).1.2 (lo1 box) (hi1 box)).2,
       (slice_range (shape a).2 (lo2 box) (hi2 box)).2) /\
  forall i j k,
    item (crop a box) i j k
    = item a ((slice_range (shape a).1.1 (lo0 box) (hi0 box)).1 + i)%nat
             ((slice_range (shape a).1.2 (lo1 box) (hi1 box)).1 + j)%nat
             ((slice_range (shape a).2 (lo2 box) (hi2 box)).1 + k)%nat.
Proof.
  unfold crop. destruct (shape a) as [[d0 d1] d2]. cbn [fst snd].
  destruct (slice_range d0 (lo0 box) (hi0 box)) as [s0 n0].
  destruct (slice_range d1 (lo1 box) (hi1 box)) as [s1 n1].
  destruct (slice_range d2 (lo2 box) (hi2 box)) as [s2 n2].
  split; reflexivity.
Qed.

(** C7.  For every volume and box, the crop/pad lines of
    [calcMeshWithCrop] return a boolean volume.  On each axis it is two
    longer than the slice [lo:hi] of that axis of the volume; its voxel at
    (i+1, j+1, k+1) is true exactly when the volume itself is above zero
    at the voxel i, j, k places after the starts of the three slices; and
    it is false at index 0 and at the last index of every axis.  When the
    box lies inside the volume the slices are the box: the result has the
    extents of the box plus two, and every voxel (i, j, k) of the volume
    inside the box is found, thresholded, at
    (i - lo0 + 1, j - lo1 + 1, k - lo2 + 1). *)
Theorem crop_and_pad_border_free (labelStack : ndarray Z) (box : bbox) :
  exists blankImg,
    crop_and_pad labelStack box = Return blankImg /\
    padded_from (crop labelStack box) blankImg /\
    (let r0 := slice_range (shape labelStack).1.1 (lo0 box) (hi0 box) in
     let r1 := slice_range (shape labelStack).1.2 (lo1 box) (hi1 box) in
     let r2 := slice_range (shape labelStack).2 (lo2 box) (hi2 box) in
     shape blankImg = (r0.2 + 2, r1.2 + 2, r2.2 + 2)%nat /\
     forall i j k, (i < r0.2)%nat -> (j < r1.2)%nat -> (k < r2.2)%nat ->
       item blankImg (S i) (S j) (S k)
       = (0 <? item labelStack (r0.1 + i)%nat (r1.1 + j)%nat (r2.1 + k)%nat)) /\
    (forall i j k,
       in_shape (shape blankImg) i j k -> on_border (shape blankImg) i j k ->
       item blankImg i j k = false) /\
    (box_within (shape labelStack) box ->
     shape blankImg
       = (Z.to_nat (hi0 box - lo0 box) + 2, Z.to_nat (hi1 box - lo1 box) + 2,
          Z.to_nat (hi2 box - lo2 box) + 2)%nat /\
     forall i j k, inside box i j k ->
       item blankImg (S (i - Z.to_nat (lo0 box))) (S (j - Z.to_nat (lo1 box)))
                     (S (k - Z.to_nat (lo2 box)))
       = (0 <? item labelStack i j k)).
Proof.
  destruct (crop_and_pad_padded labelStack box) as (img & Heq & Hpad & Hsh).
  exists img. split; [exact Heq|]. split; [exact Hpad|].
  destruct (crop_slices labelStack box) as [Hcs Hci].
  destruct Hpad as (Hs & Hin & Hb).
  split; [|split; [exact Hb|]].
  - cbv zeta. split.
    + rewrite Hs, Hcs. reflexivity.
    + intros i j k Hi Hj Hk. rewrite Hin.
      * rewrite Hci. reflexivity.
      * rewrite Hcs. unfold in_shape. cbn [fst snd]. auto.
  - intros Hw. split; [exact (Hsh Hw)|].
    intros i j k (I0 & I1 & I2).
    pose proof Hw as (A0 & B0 & A1 & B1 & A2 & B2).
    rewrite Hin.
    + rewrite Hci. rewrite !slice_range_within by assumption. cbn [fst snd].
      f_equal. f_equal; lia.
    + rewrite (crop_shape_within _ _ Hw). unfold in_shape. cbn [fst snd]. lia.
Qed.

Lemma crop_and_pad_border_free_witness :
  exists blankImg,
    crop_and_pad centre_voxel (BBox 1 2 1 2 1 2) = Return blankImg /\
    shape blankImg = (3, 3, 3)%nat /\
    item blankImg 1 1 1 = true /\
    item blankImg 0 1 1 = false.
Proof.
  destruct (crop_and_pad_border_free centre_voxel (BBox 1 2 1 2 1 2))
    as (blankImg & Heq & _ & _ & Hborder & Hwithin).
  destruct Hwithin as [Hshape Hitem].
  { unfold box_within. simpl. lia. }
  exists blankImg. split; [exact Heq|]. split; [exact Hshape|]. split.
  - apply (Hitem 1%nat 1%nat 1%nat). unfold inside. simpl. lia.
  - apply (Hborder 0%nat 1%nat 1%nat).
    + rewrite Hshape. unfold in_shape. simpl. lia.
    + left. reflexivity.
Defined.

(** The box of a non-empty volume lies inside the volume. *)
Lemma tight_box_within (a : ndarray Z) (box : bbox) :
  tight_box a box -> box_within (shape a) box.
Proof.
  intros (Hin & (i0 & j0 & k0 & F0 & E0) & (i1 & j1 & k1 & [S1 _] & E1)
              & (i2 & j2 & k2 & [S2 _] & E2) & (i3 & j3 & k3 & [S3 _] & E3)
              & (i4 & j4 & k4 & [S4 _] & E4) & (i5 & j5 & k5 & [S5 _] & E5)).
  pose proof (Hin _ _ _ F0) as I0. destruct F0 as [S0 _].
  unfold box_within, inside, in_shape in *. lia.
Qed.

(** Lines 153 to 165 together: on a volume with a voxel above zero,
    [calcMeshWithCrop] hands [march] the tight box of the foreground,
    thresholded and padded by one false voxel on every side. *)
Lemma calcMeshWithCrop_blankImg_padded (labelStack : ndarray Z) :
  (exists i j k, foreground labelStack i j k) ->
  exists box blankImg,
    calcMeshWithCrop_blankImg labelStack = Return blankImg /\
    tight_box labelStack box /\
    padded_from (crop labelStack box) blankImg /\
    shape blankImg
      = (Z.to_nat (hi0 box - lo0 box) + 2, Z.to_nat (hi1 box - lo1 box) + 2,
         Z.to_nat (hi2 box - lo2 box) + 2)%nat.
Proof.
  intros (i & j & k & Hfg).
  assert (Hne : where_coords (gt0 labelStack) <> []).
  { apply in_where_gt0 in Hfg. intros E. rewrite E in Hfg. destruct Hfg. }
  destruct (findBBDimensions_coords _ Hne)
    as (box & dims & Heq & _ & Hin & F1 & F2 & F3 & F4 & F5 & F6).
  assert (Htight : tight_box labelStack box).
  { unfold tight_box. split.
    { intros i' j' k' H'. apply in_where_gt0 in H'. exact (Hin _ H'). }
    repeat split; face_voxel. }
  destruct (crop_and_pad_padded labelStack box) as (img & Hcp & Hpad & Hsh).
  exists box, img. unfold calcMeshWithCrop_blankImg, np_where. rewrite Heq.
  cbn [rbind]. split; [exact Hcp|]. split; [exact Htight|]. split; [exact Hpad|].
  apply Hsh. apply tight_box_within. exact Htight.
Qed.

Example calcMeshWithCrop_centre_voxel :
  exists blankImg,
    calcMeshWithCrop_blankImg centre_voxel = Return blankImg /\
    shape blankImg = (3, 3, 3)%nat /\
    map (fun '(i, j, k) => item blankImg i j k) (indices (3, 3, 3)%nat)
      = repeat false 13 ++ true :: repeat false 13.
Proof. eexists. split; [reflexivity|]. split; reflexivity. Qed.

(** ** Decimal text *)

Lemma all_digits_app a b : all_digits (a +:+ b) = all_digits a && all_digits b.
Proof.
  induction a as [|c a IH]; [reflexivity|].
  simpl. rewrite IH, andb_assoc. reflexivity.
Qed.

Lemma string_length_app a b :
  String.length (a +:+ b) = (String.length a + String.length b)%nat.
Proof. induction a as [|c a IH]; simpl; [reflexivity|]. rewrite IH. reflexivity. Qed.

Lemma is_digit_digit_char d : 0 <= d < 10 -> is_digit (digit_char d) = true.
Proof.
  intros H. unfold digit_char.
  assert (Hk : (Z.to_nat d < 10)%nat) by lia.
  destruct (Z.to_nat d) as [|k]; [reflexivity|].
  do 9 (destruct k as [|k]; [reflexivity|]). lia.
Qed.

Lemma dec_fixed_length w n : String.length (dec_fixed w n) = w.
Proof.
  revert n. induction w as [|w IH]; intros n; [reflexivity|].
  cbn [dec_fixed]. rewrite string_length_app, IH. simpl. lia.
Qed.

Lemma dec_fixed_digits w n : all_digits (dec_fixed w n) = true.
Proof.
  revert n. induction w as [|w IH]; intros n; [reflexivity|].
  cbn [dec_fixed]. rewrite all_digits_app, IH. cbn [all_digits andb].
  rewrite is_digit_digit_char; [reflexivity|].
  apply Z.mod_pos_bound. lia.
Qed.

Lemma string_of_uint_digits (d : Decimal.uint) :
  all_digits (NilEmpty.string_of_uint d) = true.
Proof. induction d; cbn [NilEmpty.string_of_uint all_digits]; auto. Qed.

Lemma str_int_nonneg n :
  0 <= n -> all_digits (str_int n) = true /\ str_int n <> EmptyString.
Proof.
  intros H. unfold str_int. destruct n as [|p|p]; [split; [reflexivity|discriminate]| |lia].
  cbn [Z.to_int NilZero.string_of_int NilZero.string_of_uint].
  destruct (Pos.to_uint p) eqn:E.
  1: split; [reflexivity|discriminate].
  all: split; [apply string_of_uint_digits|discriminate].
Qed.

Lemma fixed_point_seven n :
  0 <= n -> exists ip fp,
    fixed_point 7 n = ip +:+ "." +:+ fp /\
    ip <> EmptyString /\ all_digits ip = true /\
    String.length fp = 7%nat /\ all_digits fp = true.
Proof.
  intros H. unfold fixed_point.
  destruct (str_int_nonneg (n / 10 ^ Z.of_nat 7)) as [Hd Hne].
  { apply Z.div_pos; lia. }
  eexists _, _. split; [reflexivity|].
  split; [exact Hne|]. split; [exact Hd|].
  split; [apply dec_fixed_length|apply dec_fixed_digits].
Qed.

Lemma scaled_round_nonneg p m e : 0 <= scaled_round p m e.
Proof.
  unfold scaled_round.
  assert (Hn : 0 <= Z.pos m * 10 ^ Z.of_nat p) by (apply Z.mul_nonneg_nonneg; lia).
  destruct (0 <=? e) eqn:He.
  - apply Z.leb_le in He. apply Z.mul_nonneg_nonneg; [exact Hn|]. lia.
  - apply Z.leb_gt in He.
    assert (Hd : 0 < 2 ^ (- e)) by (apply Z.pow_pos_nonneg; lia).
    assert (Hq : 0 <= Z.pos m * 10 ^ Z.of_nat p / 2 ^ (- e)) by (apply Z.div_pos; lia).
    repeat match goal with |- context [if ?b then _ else _] => destruct b end; lia.
Qed.

(** The scaled value is the nearest integer: off by at most half a unit
    of the last decimal. *)
Lemma scaled_round_nearest p m e :
  e < 0 ->
  2 * Z.abs (scaled_round p m e * 2 ^ (- e) - Z.pos m * 10 ^ Z.of_nat p)
    <= 2 ^ (- e).
Proof.
  intros He. unfold scaled_round.
  replace (0 <=? e) with false by (symmetry; apply Z.leb_gt; exact He).
  set (n := Z.pos m * 10 ^ Z.of_nat p). set (d := 2 ^ (- e)).
  assert (Hd : 0 < d) by (apply Z.pow_pos_nonneg; lia).
  pose proof (Z.div_mod n d ltac:(lia)) as Hdm.
  pose proof (Z.mod_pos_bound n d Hd) as Hr.
  set (q := n / d) in *. set (r := n mod d) in *.
  destruct (2 * r <? d) eqn:H1; [apply Z.ltb_lt in H1; nia|].
  apply Z.ltb_ge in H1.
  destruct (d <? 2 * r) eqn:H2; [apply Z.ltb_lt in H2; nia|].
  apply Z.ltb_ge in H2. destruct (Z.even q); nia.
Qed.

(** A finite coordinate is printed with exactly seven decimals. *)
Lemma format_f_seven_decimals x :
  float_is_finite x = true -> seven_decimals (format_f 7 x).
Proof.
  destruct x as [s|s| |s m e]; cbn [float_is_finite]; try discriminate; intros _.
  - destruct (fixed_point_seven 0 ltac:(lia)) as (ip & fp & E & H).
    exists s, ip, fp. cbn [format_f]. rewrite E. split; [reflexivity|exact H].
  - destruct (fixed_point_seven (scaled_round 7 m e) (scaled_round_nonneg 7 m e))
      as (ip & fp & E & H).
    exists s, ip, fp. cbn [format_f]. rewrite E. split; [reflexivity|exact H].
Qed.

(** ** [BytesIO] *)

Lemma bio_write_at_end b s :
  at_end s ->
  getvalue (bio_write b s) = getvalue s ++ b /\ at_end (bio_write b s).
Proof.
  unfold at_end. destruct s as [buf pos]. cbn [getvalue tell]. intros ->.
  destruct b as [|x b].
  - cbn [bio_write getvalue tell]. rewrite app_nil_r. split; reflexivity.
  - cbn [bio_write getvalue tell].
    rewrite take_ge by lia. rewrite Nat.sub_diag. cbn [repeat].
    rewrite drop_ge by lia. rewrite !app_nil_r.
    split; [reflexivity|]. rewrite length_app. reflexivity.
Qed.

Lemma fold_write_at_end {X} (f : X -> list Byte.byte) (l : list X) s :
  at_end s ->
  getvalue (fold_left (fun mb v => bio_write (f v) mb) l s)
    = getvalue s ++ flat_map f l /\
  at_end (fold_left (fun mb v => bio_write (f v) mb) l s).
Proof.
  revert s. induction l as [|v l IH]; intros s Hs.
  - cbn [fold_left flat_map]. rewrite app_nil_r. split; [reflexivity|exact Hs].
  - cbn [fold_left flat_map].
    destruct (bio_write_at_end (f v) s Hs) as [Hv He].
    destruct (IH _ He) as [Hv' He']. split; [|exact He'].
    rewrite Hv', Hv, <- app_assoc. reflexivity.
Qed.

(** ** Serializer, transform and orchestration *)

Section PipelineProperties.

Context {num : Type} (num_mul num_add : num -> num -> num).
Context (to_float : num -> spec_float).
Context {V : Type}.
Context (march :
  ndarray V -> nat ->
  list (num * num * num) * list (num * num * num) * list (Z * Z * Z)).
Context {Ratio : Type} (str_ratio : Ratio -> string).
Context (fq_mesh_simplify : string -> list Byte.byte -> child).

(** The stream [generate_obj] returns: the header, the vertex lines, the
    face lines, and the position back at the start. *)
Lemma generate_obj_value (vs : list (num * num * num)) (fs : list (Z * Z * Z)) :
  getvalue (generate_obj to_float vs fs)
    = encode_utf8 ("# OBJ file" +:+ newline)
      ++ flat_map (fun v => encode_utf8 (vertex_line to_float v)) vs
      ++ flat_map (fun f => encode_utf8 (face_line f)) fs /\
  tell (generate_obj to_float vs fs) = 0%nat.
Proof.
  unfold generate_obj. cbn [bio_seek getvalue tell]. split; [|reflexivity].
  assert (H0 : at_end (BytesIO_new [])) by reflexivity.
  destruct (bio_write_at_end (encode_utf8 ("# OBJ file" +:+ newline)) _ H0)
    as [V0 E0].
  destruct (fold_write_at_end (fun v => encode_utf8 (vertex_line to_float v))
              vs _ E0) as [V1 E1].
  destruct (fold_write_at_end (fun f => encode_utf8 (face_line f)) fs _ E1)
    as [V2 _].
  rewrite V2, V1, V0. cbn [BytesIO_new getvalue app].
  rewrite <- app_assoc. reflexivity.
Qed.

(** C9, as the code has it.  [generate_obj] writes the comment line
    [# OBJ file], then one line [v <x> <y> <z>] per vertex with every
    coordinate formatted by [.7f] (seven decimals for a finite value),
    then one line per face made of [f], the three integers and a space
    after each of them, every line ended by a newline, vertices before
    faces; the stream is returned rewound. *)
Theorem generate_obj_layout (vs : list (num * num * num)) (fs : list (Z * Z * Z)) :
  getvalue (generate_obj to_float vs fs)
    = encode_utf8 ("# OBJ file" +:+ newline)
      ++ flat_map (fun v => encode_utf8 (vertex_line to_float v)) vs
      ++ flat_map (fun f => encode_utf8 (face_line f)) fs /\
  tell (generate_obj to_float vs fs) = 0%nat /\
  (forall x y z,
     vertex_line to_float (x, y, z)
     = "v " +:+ format_f 7 (to_float x) +:+ " " +:+ format_f 7 (to_float y)
       +:+ " " +:+ format_f 7 (to_float z) +:+ newline) /\
  (forall v1 v2 v3,
     face_line (v1, v2, v3)
     = "f " +:+ str_int v1 +:+ " " +:+ str_int v2 +:+ " " +:+ str_int v3
       +:+ " " +:+ newline) /\
  (forall x, float_is_finite x = true -> seven_decimals (format_f 7 x)).
Proof.
  destruct (generate_obj_value vs fs) as [Hv Ht].
  split; [exact Hv|]. split; [exact Ht|].
  split; [reflexivity|]. split; [reflexivity|].
  exact format_f_seven_decimals.
Qed.

(** The transform in closed form. *)
Lemma transform_buffers_closed (z0 y0 x0 : num) (box_hi : num * num * num)
  (downsample_factor : num)
  (vertices_xyz : list (num * num * num)) (faces : list (Z * Z * Z)) :
  transform_buffers num_mul num_add ((z0, y0, x0), box_hi)
    downsample_factor vertices_xyz faces
  = (map (fun '(x, y, z) =>
            (num_add (num_mul x downsample_factor) x0,
             num_add (num_mul y downsample_factor) y0,
             num_add (num_mul z downsample_factor) z0)) vertices_xyz,
     map (fun '(a, b, c) => (c + 1, b + 1, a + 1)) faces).
Proof.
  unfold transform_buffers. cbn [fst snd rev3]. rewrite !map_map. f_equal.
  - apply map_ext. intros [[x y] z]. reflexivity.
  - apply map_ext. intros [[a b] c]. reflexivity.
Qed.

(** [mesh_from_array] serializes the transformed buffers of [march], and
    hands the stream to [simplify_mesh] only when a ratio is given. *)
Lemma mesh_from_array_unfold (volume_zyx : ndarray V)
  (box_zyx : (num * num * num) * (num * num * num)) (downsample_factor : num)
  (simplify_ratio : option Ratio) (smoothing_rounds : nat) :
  mesh_from_array num_mul num_add to_float march str_ratio fq_mesh_simplify
    volume_zyx box_zyx downsample_factor simplify_ratio smoothing_rounds
  = let raw := march (transpose volume_zyx) smoothing_rounds in
    let out := transform_buffers num_mul num_add box_zyx downsample_factor
                 raw.1.1 raw.2 in
    let mesh_stream := generate_obj to_float out.1 out.2 in
    match simplify_ratio with
    | None => ret (getvalue mesh_stream)
    | Some ratio =>
        simplify_mesh str_ratio fq_mesh_simplify (PyBytesIO mesh_stream) ratio
    end.
Proof.
  unfold mesh_from_array.
  destruct (march (transpose volume_zyx) smoothing_rounds) as [[vs ns] fs].
  cbn [fst snd].
  destruct (transform_buffers num_mul num_add box_zyx downsample_factor vs fs)
    as [vs' fs'] eqn:E.
  cbn [fst snd]. destruct simplify_ratio; [reflexivity|].
  unfold bio_read. destruct (generate_obj_value vs' fs') as [_ ->].
  reflexivity.
Qed.

(** C8.  The vertices [march] returns are each multiplied by
    [downsample_factor] and then moved by the lower corner of the box,
    taken in x, y, z order; each face has its three indices reversed and
    raised by one.  [mesh_from_array] has no other offset, and these are
    the buffers it serializes. *)
Theorem mesh_from_array_transform (volume_zyx : ndarray V)
  (z0 y0 x0 : num) (box_hi : num * num * num) (downsample_factor : num)
  (simplify_ratio : option Ratio) (smoothing_rounds : nat) :
  let raw := march (transpose volume_zyx) smoothing_rounds in
  let vertices :=
    map (fun '(x, y, z) =>
           (num_add (num_mul x downsample_factor) x0,
            num_add (num_mul y downsample_factor) y0,
            num_add (num_mul z downsample_factor) z0)) raw.1.1 in
  let faces := map (fun '(a, b, c) => (c + 1, b + 1, a + 1)) raw.2 in
  transform_buffers num_mul num_add ((z0, y0, x0), box_hi)
    downsample_factor raw.1.1 raw.2 = (vertices, faces) /\
  mesh_from_array num_mul num_add to_float march str_ratio fq_mesh_simplify
    volume_zyx ((z0, y0, x0), box_hi) downsample_factor simplify_ratio
    smoothing_rounds
  = match simplify_ratio with
    | None => ret (getvalue (generate_obj to_float vertices faces))
    | Some ratio =>
        simplify_mesh str_ratio fq_mesh_simplify
          (PyBytesIO (generate_obj to_float vertices faces)) ratio
    end.
Proof.
  intros raw vertices faces. split; [apply transform_buffers_closed|].
  rewrite mesh_from_array_unfold. cbv zeta. fold raw.
  rewrite transform_buffers_closed. reflexivity.
Qed.

(** C3.  Without a ratio, [mesh_from_array] returns the bytes of the
    stream [generate_obj] produced, all of them and nothing else, and
    leaves the world as it was: no directory, no pipe, no process. *)
Theorem mesh_from_array_without_ratio (volume_zyx : ndarray V)
  (box_zyx : (num * num * num) * (num * num * num)) (downsample_factor : num)
  (smoothing_rounds : nat) (w : World) :
  let raw := march (transpose volume_zyx) smoothing_rounds in
  let out := transform_buffers num_mul num_add box_zyx downsample_factor
               raw.1.1 raw.2 in
  mesh_from_array num_mul num_add to_float march str_ratio fq_mesh_simplify
    volume_zyx box_zyx downsample_factor None smoothing_rounds w
  = (Return (getvalue (generate_obj to_float out.1 out.2)), w).
Proof.
  intros raw out. rewrite mesh_from_array_unfold. reflexivity.
Qed.

End PipelineProperties.

(** ** Temporary pipes *)

(** Entering [temp_pipe(name)] makes a new directory holding the pipe. *)
Lemma temp_pipe_enter (name : string) (w : World) :
  cm_before (temp_pipe name) w
  = (Return ((fresh (dom (fs w)), Path (fresh (dom (fs w))) name),
             Path (fresh (dom (fs w))) name),
     mkWorld (<[fresh (dom (fs w)) := {[name]}]> (fs w)) (spawned w)).
Proof.
  unfold temp_pipe, cm_before, bind, mkdtemp, os_mkfifo, set_fs, ret.
  cbn [fs spawned path_dir path_name].
  rewrite lookup_insert_eq.
  rewrite decide_False by set_solver.
  rewrite insert_insert_eq, (right_id_L ∅ (∪)). reflexivity.
Qed.

(** Resuming the generator after the [yield] removes the pipe and then the
    directory, when the directory holds the pipe and nothing else. *)
Lemma temp_pipe_exit (name : string) (d : nat) (w : World) :
  fs w !! d = Some {[name]} ->
  cm_after (temp_pipe name) (d, Path d name) w
  = (Return tt, mkWorld (delete d (fs w)) (spawned w)).
Proof.
  intros Hd. unfold temp_pipe, cm_after, bind, os_unlink, os_rmdir, set_fs.
  cbn [fs spawned path_dir path_name]. rewrite Hd.
  rewrite decide_True by set_solver.
  cbn [fs spawned]. rewrite lookup_insert_eq.
  rewrite decide_True by apply difference_diag_L.
  rewrite delete_insert_eq. reflexivity.
Qed.

Lemma fresh_dir_absent (m : gmap nat (gset string)) : m !! fresh (dom m) = None.
Proof. apply not_elem_of_dom. apply is_fresh. Qed.

Section PipeProperties.

Context {Ratio : Type} (str_ratio : Ratio -> string).
Context (fq_mesh_simplify : string -> list Byte.byte -> child).

(** One run of [simplify_mesh] on a stream, step by step: two fresh
    directories with one pipe each, one child process fed what is left
    of the stream, and then either the bytes read, with both pipes and
    directories removed, or an exception, with all four left in place. *)
Lemma simplify_mesh_run (stream : BytesIO) (ratio : Ratio) (w : World) :
  let d1 := fresh (dom (fs w)) in
  let fs1 := <[d1 := {["mesh.obj"]}]> (fs w) in
  let d2 := fresh (dom fs1) in
  let fs2 := <[d2 := {["simple.obj"]}]> fs1 in
  let cmd :=
    simplify_command str_ratio (Path d1 "mesh.obj") (Path d2 "simple.obj") ratio in
  let proc := fq_mesh_simplify cmd (drop (tell stream) (getvalue stream)) in
  simplify_mesh str_ratio fq_mesh_simplify (PyBytesIO stream) ratio w
  = if returncode proc =? 0 then
      match pipe_read proc with
      | Return b => (Return b, mkWorld (fs w) (cmd :: spawned w))
      | Raise e => (Raise e, mkWorld fs2 (cmd :: spawned w))
      end
    else
      (Raise (RuntimeError (error_code_message (returncode proc))),
       mkWorld fs2 (cmd :: spawned w)).
Proof.
  intros d1 fs1 d2 fs2 cmd proc.
  unfold simplify_mesh, py_with. rewrite temp_pipe_enter. fold d1 fs1.
  rewrite temp_pipe_enter. cbn [fs spawned]. fold d2 fs2.
  unfold bind, Popen, try_finally. cbn [fs spawned bio_read fst].
  fold cmd proc.
  destruct (returncode proc =? 0) eqn:Hrc.
  - destruct (pipe_read proc) as [b|e]; cbn [ret raise]; [|reflexivity].
    rewrite temp_pipe_exit by (cbn [fs]; apply lookup_insert_eq).
    cbn [fs spawned]. unfold fs2. rewrite delete_insert_eq.
    rewrite (delete_id fs1 d2) by apply fresh_dir_absent.
    rewrite temp_pipe_exit by (cbn [fs]; apply lookup_insert_eq).
    cbn [fs spawned]. unfold fs1. rewrite delete_insert_eq.
    rewrite (delete_id (fs w) d1) by apply fresh_dir_absent.
    reflexivity.
  - destruct (pipe_read proc) as [b|e]; reflexivity.
Qed.

Lemma simplify_mesh_bytes (b : list Byte.byte) (ratio : Ratio) (w : World) :
  simplify_mesh str_ratio fq_mesh_simplify (PyBytes b) ratio w
  = simplify_mesh str_ratio fq_mesh_simplify (PyBytesIO (BytesIO_new b)) ratio w.
Proof. reflexivity. Qed.

(** An accepted argument is a stream, given or wrapped. *)
Lemma accepted_stream (obj : pyobj) (ratio : Ratio) (w : World) :
  accepted obj = true ->
  exists stream,
    simplify_mesh str_ratio fq_mesh_simplify obj ratio w
    = simplify_mesh str_ratio fq_mesh_simplify (PyBytesIO stream) ratio w.
Proof.
  destruct obj as [s|b|stream|n|]; try discriminate; intros _.
  - exists (BytesIO_new b). reflexivity.
  - exists stream. reflexivity.
Qed.


(** Once the wait for the response pipe is over: on an accepted argument
    [simplify_mesh] starts one child on the bytes of the argument; when
    that child's exit code is not zero the call raises [RuntimeError] with
    the code in its message, whatever was read from the response pipe: the
    result holds no bytes. *)
Theorem simplify_mesh_nonzero_exit (obj : pyobj) (ratio : Ratio) (w : World) :
  accepted obj = true ->
  exists cmd,
    spawned (simplify_mesh str_ratio fq_mesh_simplify obj ratio w).2
      = cmd :: spawned w /\
    (returncode (fq_mesh_simplify cmd (payload obj)) <> 0 ->
     (simplify_mesh str_ratio fq_mesh_simplify obj ratio w).1
     = Raise (RuntimeError
                ("fq-mesh-simplify returned an error code: "
                 +:+ str_int (returncode (fq_mesh_simplify cmd (payload obj)))))).
Proof.
  intros Hacc.
  assert (Hs : exists stream,
             simplify_mesh str_ratio fq_mesh_simplify obj ratio w
             = simplify_mesh str_ratio fq_mesh_simplify (PyBytesIO stream) ratio w
             /\ payload obj = drop (tell stream) (getvalue stream)).
  { destruct obj as [s|b|stream|n|]; try discriminate.
    - exists (BytesIO_new b). split; reflexivity.
    - exists stream. split; reflexivity. }
  destruct Hs as (stream & -> & ->).
  rewrite simplify_mesh_run. cbv zeta.
  eexists. split.
  - destruct (returncode _ =? 0); [destruct (pipe_read _)|]; reflexivity.
  - intros Hrc. apply Z.eqb_neq in Hrc. rewrite Hrc. reflexivity.
Qed.

(** On the path without an exception the file system is as before. *)
Lemma simplify_mesh_return_cleans (obj : pyobj) (ratio : Ratio)
  (w w' : World) (b : list Byte.byte) :
  simplify_mesh str_ratio fq_mesh_simplify obj ratio w = (Return b, w') ->
  fs w' = fs w.
Proof.
  destruct (accepted obj) eqn:Hacc.
  - destruct (accepted_stream obj ratio w Hacc) as [stream ->].
    rewrite simplify_mesh_run. cbv zeta.
    destruct (returncode _ =? 0); [destruct (pipe_read _)|];
      intros H; inversion H; reflexivity.
  - destruct obj; try discriminate; intros H; inversion H.
Qed.

(** C1, as the code behaves.  Whenever [simplify_mesh] raises on an
    accepted argument, the two directories it created are new ones and
    both still exist afterwards, each with its pipe inside: the exception
    passes through the bare [yield] of [temp_pipe], and the [os.unlink]
    and [os.rmdir] after it are not run. *)
Theorem simplify_mesh_raise_leaves_pipes (obj : pyobj) (ratio : Ratio)
  (w w' : World) (e : exn) :
  accepted obj = true ->
  simplify_mesh str_ratio fq_mesh_simplify obj ratio w = (Raise e, w') ->
  exists d1 d2,
    d1 <> d2 /\ ~ dir_exists w d1 /\ ~ dir_exists w d2 /\
    path_exists w' (Path d1 "mesh.obj") /\
    path_exists w' (Path d2 "simple.obj").
Proof.
  intros Hacc. destruct (accepted_stream obj ratio w Hacc) as [stream ->].
  rewrite simplify_mesh_run. cbv zeta.
  set (d1 := fresh (dom (fs w))).
  set (fs1 := <[d1 := {["mesh.obj"]}]> (fs w)).
  set (d2 := fresh (dom fs1)).
  set (fs2 := <[d2 := {["simple.obj"]}]> fs1).
  set (cmd := simplify_command _ _ _ _). set (proc := fq_mesh_simplify _ _).
  intros Hrun.
  assert (Hw' : fs w' = fs2).
  { destruct (returncode proc =? 0); [destruct (pipe_read proc)|];
      inversion Hrun; reflexivity. }
  assert (H1 : fs w !! d1 = None) by apply fresh_dir_absent.
  assert (H2 : fs1 !! d2 = None) by apply fresh_dir_absent.
  assert (Hne : d1 <> d2).
  { intros Heq. rewrite <- Heq in H2. unfold fs1 in H2.
    rewrite lookup_insert_eq in H2. discriminate. }
  exists d1, d2. split; [exact Hne|]. split; [|split; [|split]].
  - unfold dir_exists. rewrite H1. intros [? ?]. discriminate.
  - unfold dir_exists. unfold fs1 in H2.
    rewrite lookup_insert_ne in H2 by exact Hne.
    rewrite H2. intros [? ?]. discriminate.
  - exists {["mesh.obj"]}. cbn [path_dir path_name]. rewrite Hw'. split.
    + unfold fs2. rewrite lookup_insert_ne by congruence.
      apply lookup_insert_eq.
    + set_solver.
  - exists {["simple.obj"]}. cbn [path_dir path_name]. rewrite Hw'. split.
    + apply lookup_insert_eq.
    + set_solver.
Qed.

End PipeProperties.

(** ** The properties at sample inputs *)

(** C9, as the claim words it, fails on any face: the code writes a space
    between the third index and the newline. *)
Lemma generate_obj_face_line_differs :
  getvalue (generate_obj Z_to_float [] [(1, 2, 3)])
  <> obj_bytes_spec Z_to_float [] [(1, 2, 3)].
Proof. vm_compute. discriminate. Qed.

Example generate_obj_sample :
  string_of_list_byte
    (getvalue (generate_obj Z_to_float [(32, -24, 0)] [(3, 2, 1)]))
  = "# OBJ file" +:+ newline
    +:+ "v 32.0000000 -24.0000000 0.0000000" +:+ newline
    +:+ "f 3 2 1 " +:+ newline.
Proof. reflexivity. Qed.

Example format_f_half_even :
  format_f 7 (S754_finite false 1 (-8)) = "0.0039062" /\
  format_f 7 (S754_finite false 3 (-8)) = "0.0117188" /\
  format_f 7 (S754_finite true 3602879701896397 (-55)) = "-0.1000000".
Proof. repeat split; reflexivity. Qed.

Lemma simplify_mesh_nonzero_exit_witness :
  exists cmd,
    spawned (simplify_mesh (fun r : string => r) (copying_child 1)
               (PyBytes header_bytes) "0.5" empty_world).2
      = cmd :: spawned empty_world /\
    (returncode (copying_child 1 cmd (payload (PyBytes header_bytes))) <> 0 ->
     (simplify_mesh (fun r : string => r) (copying_child 1)
        (PyBytes header_bytes) "0.5" empty_world).1
     = Raise (RuntimeError
                ("fq-mesh-simplify returned an error code: "
                 +:+ str_int (returncode
                                (copying_child 1 cmd
                                   (payload (PyBytes header_bytes))))))).
Proof.
  apply (simplify_mesh_nonzero_exit (fun r : string => r) (copying_child 1)
           (PyBytes header_bytes) "0.5" empty_world).
  reflexivity.
Defined.

Lemma simplify_mesh_raise_leaves_pipes_witness :
  (simplify_mesh (fun r : string => r) (copying_child 1)
     (PyBytes header_bytes) "0.5" empty_world).1
    = Raise (RuntimeError "fq-mesh-simplify returned an error code: 1") /\
  exists d1 d2,
    d1 <> d2 /\ ~ dir_exists empty_world d1 /\ ~ dir_exists empty_world d2 /\
    path_exists
      (simplify_mesh (fun r : string => r) (copying_child 1)
         (PyBytes header_bytes) "0.5" empty_world).2
      (Path d1 "mesh.obj") /\
    path_exists
      (simplify_mesh (fun r : string => r) (copying_child 1)
         (PyBytes header_bytes) "0.5" empty_world).2
      (Path d2 "simple.obj").
Proof.
  split; [vm_compute; reflexivity|].
  apply (simplify_mesh_raise_leaves_pipes (fun r : string => r)
           (copying_child 1) (PyBytes header_bytes) "0.5" empty_world
           (simplify_mesh (fun r : string => r) (copying_child 1)
              (PyBytes header_bytes) "0.5" empty_world).2
           (RuntimeError "fq-mesh-simplify returned an error code: 1")).
  - reflexivity.
  - vm_compute. reflexivity.
Defined.

(** The failing run in full: the simplifier exits with code 1, the call
    raises, and the world keeps directory 0 with [mesh.obj] and directory 1
    with [simple.obj]. *)
Example simplify_mesh_failure_run :
  simplify_mesh (fun r : string => r) (copying_child 1)
    (PyBytes header_bytes) "0.5" empty_world
  = (Raise (RuntimeError "fq-mesh-simplify returned an error code: 1"),
     mkWorld (<[1%nat := {["simple.obj"]}]> (<[0%nat := {["mesh.obj"]}]> ∅))
       ["fq-mesh-simplify " +:+ dquote +:+ "/tmp/tmp0/mesh.obj" +:+ dquote
        +:+ " " +:+ dquote +:+ "/tmp/tmp1/simple.obj" +:+ dquote +:+ " 0.5"]).
Proof. vm_compute. reflexivity. Qed.

(** The same call with exit code 0 returns the bytes read and leaves no
    directory behind. *)
Example simplify_mesh_success_run :
  simplify_mesh (fun r : string => r) (copying_child 0)
    (PyBytes header_bytes) "0.5" empty_world
  = (Return header_bytes,
     mkWorld ∅
       ["fq-mesh-simplify " +:+ dquote +:+ "/tmp/tmp0/mesh.obj" +:+ dquote
        +:+ " " +:+ dquote +:+ "/tmp/tmp1/simple.obj" +:+ dquote +:+ " 0.5"]).
Proof. vm_compute. reflexivity. Qed.

(* ===================================================================== *)
(** * Further properties of the code *)
(* ===================================================================== *)

(** ** [findBBDimensions] on arbitrary index arrays *)

Lemma fold_min_le_max r x : fold_left Z.min r x <= fold_left Z.max r x.
Proof.
  destruct (fold_min_spec r x) as [_ Hmin].
  destruct (fold_max_spec r x) as [_ Hmax].
  specialize (Hmin x (or_introl eq_refl)).
  specialize (Hmax x (or_introl eq_refl)). lia.
Qed.

Lemma py_min_max_some (l : list Z) :
  l <> [] -> exists m M, py_min l = Return m /\ py_max l = Return M /\ m <= M.
Proof.
  destruct l as [|x r]; [congruence|]. intros _.
  exists (fold_left Z.min r x), (fold_left Z.max r x).
  split; [reflexivity|]. split; [reflexivity|]. apply fold_min_le_max.
Qed.

(** X1.  [findBBDimensions] returns exactly when none of its three index
    arrays is empty; with an empty one it raises the [ValueError] of
    [min], whichever array it is, because every [min] comes before the
    [max] of the same array. *)
Theorem findBBDimensions_raises_iff_empty (xs ys zs : list Z) :
  (xs = [] \/ ys = [] \/ zs = [] ->
   findBBDimensions (xs, ys, zs)
   = Raise (ValueError "min() arg is an empty sequence")) /\
  (xs <> [] /\ ys <> [] /\ zs <> [] ->
   exists r, findBBDimensions (xs, ys, zs) = Return r).
Proof.
  unfold findBBDimensions. cbn [fst snd]. split.
  - intros H.
    destruct xs as [|x xs]; [reflexivity|].
    destruct ys as [|y ys]; [reflexivity|].
    destruct zs as [|z zs]; [reflexivity|].
    destruct H as [H|[H|H]]; discriminate.
  - intros (Hx & Hy & Hz).
    destruct (py_min_max_some xs Hx) as (? & ? & -> & -> & _).
    destruct (py_min_max_some ys Hy) as (? & ? & -> & -> & _).
    destruct (py_min_max_some zs Hz) as (? & ? & -> & -> & _).
    eexists. reflexivity.
Qed.

Lemma fold_min_max_bounds (a b : Z) (r : list Z) (x : Z) :
  Forall (fun v => a <= v < b) (x :: r) ->
  a <= fold_left Z.min r x < b /\ a <= fold_left Z.max r x < b.
Proof.
  intros H. rewrite List.Forall_forall in H.
  destruct (fold_min_spec r x) as [Hmin _].
  destruct (fold_max_spec r x) as [Hmax _].
  split; apply H; assumption.
Qed.

(** X2.  On index arrays whose values lie in [-2^62, 2^62), where the
    [int64] arithmetic of numpy and the integers agree, every box
    [findBBDimensions] returns is non-empty on each axis (lower bound
    below upper bound), the second value has no negative component, and
    every number returned is an [int64] value: nothing has wrapped. *)
Theorem findBBDimensions_box_nonempty
  (listOfPixels : list Z * list Z * list Z) (box : bbox) (dims : Z * Z * Z) :
  int64_safe listOfPixels.1.1 ->
  int64_safe listOfPixels.1.2 ->
  int64_safe listOfPixels.2 ->
  findBBDimensions listOfPixels = Return (box, dims) ->
  (lo0 box < hi0 box /\ lo1 box < hi1 box /\ lo2 box < hi2 box) /\
  (0 <= dims.1.1 /\ 0 <= dims.1.2 /\ 0 <= dims.2) /\
  (int64 (lo0 box) /\ int64 (hi0 box) /\ int64 (lo1 box) /\ int64 (hi1 box) /\
   int64 (lo2 box) /\ int64 (hi2 box) /\
   int64 dims.1.1 /\ int64 dims.1.2 /\ int64 dims.2).
Proof.
  destruct listOfPixels as [[xs ys] zs]. unfold findBBDimensions, int64_safe.
  cbn [fst snd].
  destruct xs as [|x xs]; [discriminate|].
  destruct ys as [|y ys]; [discriminate|].
  destruct zs as [|z zs]; [discriminate|].
  intros Bx By Bz.
  cbn [py_min py_max rbind]. intros H. inversion H; subst.
  cbn [lo0 hi0 lo1 hi1 lo2 hi2 fst snd]. unfold int64.
  pose proof (fold_min_le_max xs x). pose proof (fold_min_le_max ys y).
  pose proof (fold_min_le_max zs z).
  apply fold_min_max_bounds in Bx, By, Bz.
  change (2 ^ 62) with 4611686018427387904 in *.
  change (2 ^ 63) with 9223372036854775808.
  lia.
Qed.

Lemma findBBDimensions_box_nonempty_witness :
  (1 < 2 /\ 1 < 2 /\ 1 < 2) /\
  (0 <= 0 /\ 0 <= 0 /\ 0 <= 0) /\
  (int64 1 /\ int64 2 /\ int64 1 /\ int64 2 /\ int64 1 /\ int64 2 /\
   int64 0 /\ int64 0 /\ int64 0).
Proof.
  apply (findBBDimensions_box_nonempty (np_where (gt0 centre_voxel))
           (BBox 1 2 1 2 1 2) (0, 0, 0)).
  - unfold int64_safe. simpl. repeat constructor; lia.
  - unfold int64_safe. simpl. repeat constructor; lia.
  - unfold int64_safe. simpl. repeat constructor; lia.
  - reflexivity.
Defined.

(** ** Cropping to the box keeps the foreground *)

Lemma crop_item_within {A} (a : ndarray A) (box : bbox) i j k :
  box_within (shape a) box ->
  item (crop a box) i j k
  = item a (Z.to_nat (lo0 box) + i) (Z.to_nat (lo1 box) + j)
      (Z.to_nat (lo2 box) + k).
Proof.
  unfold box_within, crop. destruct (shape a) as [[d0 d1] d2]. cbn [fst snd].
  intros (A0 & B0 & A1 & B1 & A2 & B2).
  rewrite !slice_range_within by assumption. reflexivity.
Qed.

(** A voxel of the window is foreground exactly when the voxel of the
    volume it was cut from is. *)
Lemma foreground_crop (a : ndarray Z) (box : bbox) i j k :
  box_within (shape a) box ->
  foreground (crop a box) i j k <->
  Z.of_nat i < hi0 box - lo0 box /\ Z.of_nat j < hi1 box - lo1 box /\
  Z.of_nat k < hi2 box - lo2 box /\
  foreground a (Z.to_nat (lo0 box) + i) (Z.to_nat (lo1 box) + j)
    (Z.to_nat (lo2 box) + k).
Proof.
  intros Hin. unfold foreground.
  rewrite (crop_shape_within _ _ Hin), (crop_item_within _ _ _ _ _ Hin).
  unfold box_within, in_shape in *. cbn [fst snd]. split.
  - intros ((H0 & H1 & H2) & Hpos). repeat split; first [lia | exact Hpos].
  - intros (H0 & H1 & H2 & _ & Hpos). split; [lia|exact Hpos].
Qed.

(** The box of a volume with foreground, with everything the later lemmas
    need about it. *)
Lemma findBBDimensions_foreground (labelStack : ndarray Z) :
  (exists i j k, foreground labelStack i j k) ->
  exists box dims,
    findBBDimensions (np_where (gt0 labelStack)) = Return (box, dims) /\
    dims = (hi0 box - 1 - lo0 box, hi1 box - 1 - lo1 box, hi2 box - 1 - lo2 box) /\
    tight_box labelStack box /\ box_within (shape labelStack) box.
Proof.
  intros (i & j & k & Hfg).
  assert (Hne : where_coords (gt0 labelStack) <> []).
  { apply in_where_gt0 in Hfg. intros E. rewrite E in Hfg. destruct Hfg. }
  destruct (findBBDimensions_coords _ Hne)
    as (box & dims & Heq & Hd & Hin & F1 & F2 & F3 & F4 & F5 & F6).
  assert (Htight : tight_box labelStack box).
  { unfold tight_box. split.
    { intros i' j' k' H'. apply in_where_gt0 in H'. exact (Hin _ H'). }
    repeat split; face_voxel. }
  exists box, dims. split; [exact Heq|]. split; [exact Hd|].
  split; [exact Htight|]. apply tight_box_within. exact Htight.
Qed.

(** A foreground voxel of the volume is a foreground voxel of the window,
    at its index minus the lower corner of the box. *)
Lemma foreground_moves (labelStack : ndarray Z) (box : bbox) i j k :
  box_within (shape labelStack) box ->
  inside box i j k ->
  foreground labelStack i j k ->
  foreground (crop labelStack box) (i - Z.to_nat (lo0 box))
    (j - Z.to_nat (lo1 box)) (k - Z.to_nat (lo2 box)).
Proof.
  intros Hin Hi Hf. apply foreground_crop; [exact Hin|].
  unfold inside, box_within in *.
  replace (Z.to_nat (lo0 box) + (i - Z.to_nat (lo0 box)))%nat with i by lia.
  replace (Z.to_nat (lo1 box) + (j - Z.to_nat (lo1 box)))%nat with j by lia.
  replace (Z.to_nat (lo2 box) + (k - Z.to_nat (lo2 box)))%nat with k by lia.
  repeat split; first [lia | apply Hf].
Qed.

(** One axis of the box of the window: its lower bound is attained and is
    at most the moved lowest voxel, so it is 0; its upper bound is one
    past an index below the extent and above the moved highest voxel, so
    it is the extent. *)
Lemma window_axis (lo hi l h : Z) (a_lo a_hi c_lo c_hi : nat) :
  0 <= lo ->
  Z.of_nat a_lo = lo -> Z.of_nat a_hi = hi - 1 ->
  l <= Z.of_nat (a_lo - Z.to_nat lo) ->
  Z.of_nat (a_hi - Z.to_nat lo) < h ->
  Z.of_nat c_lo = l -> Z.of_nat c_hi = h - 1 ->
  Z.of_nat c_hi < hi - lo ->
  l = 0 /\ h = hi - lo.
Proof. lia. Qed.

(** X3.  Cropping is idempotent for the box: the bounding box of the
    window cut out by the box of a volume is the whole window, from 0 to
    the extent of the box on each axis, and the second value is the same
    as for the volume. *)
Theorem findBBDimensions_of_crop (labelStack : ndarray Z) :
  (exists i j k, foreground labelStack i j k) ->
  exists box dims,
    findBBDimensions (np_where (gt0 labelStack)) = Return (box, dims) /\
    findBBDimensions (np_where (gt0 (crop labelStack box)))
    = Return (BBox 0 (hi0 box - lo0 box) 0 (hi1 box - lo1 box)
                0 (hi2 box - lo2 box), dims).
Proof.
  intros Hfg0.
  destruct (findBBDimensions_foreground labelStack Hfg0)
    as (box & dims & Heq & Hd & Htight & Hin).
  exists box, dims. split; [exact Heq|].
  set (window := crop labelStack box).
  destruct Htight as (Hins & (a0 & b0 & c0 & G0 & E0) & (a1 & b1 & c1 & G1 & E1)
                        & (a2 & b2 & c2 & G2 & E2) & (a3 & b3 & c3 & G3 & E3)
                        & (a4 & b4 & c4 & G4 & E4) & (a5 & b5 & c5 & G5 & E5)).
  assert (Hmove : forall i j k, foreground labelStack i j k ->
            In (i - Z.to_nat (lo0 box), j - Z.to_nat (lo1 box),
                k - Z.to_nat (lo2 box))%nat (where_coords (gt0 window))).
  { intros i j k Hf. apply in_where_gt0.
    apply foreground_moves; [exact Hin|apply Hins; exact Hf|exact Hf]. }
  assert (Hne : where_coords (gt0 window) <> []).
  { intros E. specialize (Hmove _ _ _ G0). rewrite E in Hmove. destruct Hmove. }
  destruct (findBBDimensions_coords _ Hne)
    as (box' & dims' & Heq' & Hd' & Hin' & F1 & F2 & F3 & F4 & F5 & F6).
  unfold np_where. fold window. rewrite Heq'. f_equal.
  assert (Hup : forall c, In c (where_coords (gt0 window)) ->
            Z.of_nat c.1.1 < hi0 box - lo0 box /\
            Z.of_nat c.1.2 < hi1 box - lo1 box /\
            Z.of_nat c.2 < hi2 box - lo2 box).
  { intros [[ci cj] ck] Hc. apply in_where_gt0 in Hc.
    apply (foreground_crop _ _ _ _ _ Hin) in Hc. cbn [fst snd]. tauto. }
  pose proof (Hin' _ (Hmove _ _ _ G0)) as ((X0 & _) & _ & _).
  pose proof (Hin' _ (Hmove _ _ _ G1)) as ((_ & X1) & _ & _).
  pose proof (Hin' _ (Hmove _ _ _ G2)) as (_ & (X2 & _) & _).
  pose proof (Hin' _ (Hmove _ _ _ G3)) as (_ & (_ & X3) & _).
  pose proof (Hin' _ (Hmove _ _ _ G4)) as (_ & _ & (X4 & _)).
  pose proof (Hin' _ (Hmove _ _ _ G5)) as (_ & _ & (_ & X5)).
  cbn [fst snd] in X0, X1, X2, X3, X4, X5.
  destruct F1 as (k1 & _ & F1).
  destruct F2 as (k2 & Hc2 & F2). destruct (Hup _ Hc2) as (U2 & _ & _).
  destruct F3 as (k3 & _ & F3).
  destruct F4 as (k4 & Hc4 & F4). destruct (Hup _ Hc4) as (_ & U4 & _).
  destruct F5 as (k5 & _ & F5).
  destruct F6 as (k6 & Hc6 & F6). destruct (Hup _ Hc6) as (_ & _ & U6).
  destruct Hin as (B0 & _ & B1 & _ & B2 & _).
  destruct (window_axis _ _ _ _ _ _ _ _ (proj1 B0) E0 E1 X0 X1 F1 F2 U2) as [L0 H0].
  destruct (window_axis _ _ _ _ _ _ _ _ (proj1 B1) E2 E3 X2 X3 F3 F4 U4) as [L1 H1].
  destruct (window_axis _ _ _ _ _ _ _ _ (proj1 B2) E4 E5 X4 X5 F5 F6 U6) as [L2 H2].
  clear - Hd Hd' L0 H0 L1 H1 L2 H2.
  destruct box' as [l0 h0 l1 h1 l2 h2]. cbn [lo0 hi0 lo1 hi1 lo2 hi2] in *.
  subst. f_equal. f_equal; [f_equal|]; ring.
Qed.

Lemma findBBDimensions_of_crop_witness :
  exists box dims,
    findBBDimensions (np_where (gt0 centre_voxel)) = Return (box, dims) /\
    findBBDimensions (np_where (gt0 (crop centre_voxel box)))
    = Return (BBox 0 (hi0 box - lo0 box) 0 (hi1 box - lo1 box)
                0 (hi2 box - lo2 box), dims).
Proof.
  apply (findBBDimensions_of_crop centre_voxel).
  exists 1%nat, 1%nat, 1%nat. unfold foreground, in_shape. simpl. lia.
Defined.

(** X4.  On a volume with foreground, lines 153 to 165 of
    [calcMeshWithCrop] lose and invent nothing: with [box] the box found,
    every foreground voxel (i, j, k) of the volume is the true voxel
    (i - lo0 + 1, j - lo1 + 1, k - lo2 + 1) of the padded volume, and every
    true voxel of the padded volume is such a voxel. *)
Theorem calcMeshWithCrop_keeps_foreground (labelStack : ndarray Z) :
  (exists i j k, foreground labelStack i j k) ->
  exists box dims blankImg,
    findBBDimensions (np_where (gt0 labelStack)) = Return (box, dims) /\
    calcMeshWithCrop_blankImg labelStack = Return blankImg /\
    (forall i j k, foreground labelStack i j k ->
       item blankImg (S (i - Z.to_nat (lo0 box))) (S (j - Z.to_nat (lo1 box)))
         (S (k - Z.to_nat (lo2 box))) = true) /\
    (forall i' j' k', in_shape (shape blankImg) i' j' k' ->
       item blankImg i' j' k' = true ->
       exists i j k,
         foreground labelStack i j k /\
         i' = S (i - Z.to_nat (lo0 box)) /\ j' = S (j - Z.to_nat (lo1 box)) /\
         k' = S (k - Z.to_nat (lo2 box))).
Proof.
  intros Hfg0.
  destruct (findBBDimensions_foreground labelStack Hfg0)
    as (box & dims & Heq & Hd & Htight & Hin).
  destruct (crop_and_pad_padded labelStack box) as (img & Hcp & Hpad & _).
  exists box, dims, img. split; [exact Heq|]. split.
  { unfold calcMeshWithCrop_blankImg. rewrite Heq. exact Hcp. }
  destruct Hpad as (Hsh & Hint & Hbord).
  rewrite (crop_shape_within _ _ Hin) in Hsh, Hint. cbn [fst snd] in Hsh.
  split.
  - intros i j k Hf. destruct Htight as [Hins _].
    pose proof (Hins _ _ _ Hf) as Hi. unfold inside, box_within in *.
    rewrite Hint by (unfold in_shape; cbn [fst snd]; lia).
    rewrite crop_item_within by exact Hin.
    replace (Z.to_nat (lo0 box) + (i - Z.to_nat (lo0 box)))%nat with i by lia.
    replace (Z.to_nat (lo1 box) + (j - Z.to_nat (lo1 box)))%nat with j by lia.
    replace (Z.to_nat (lo2 box) + (k - Z.to_nat (lo2 box)))%nat with k by lia.
    apply Z.ltb_lt. apply Hf.
  - intros i' j' k' Hs Ht.
    destruct i' as [|i]; [rewrite Hbord in Ht; [discriminate|exact Hs|left; reflexivity]|].
    destruct j' as [|j];
      [rewrite Hbord in Ht; [discriminate|exact Hs|right; right; left; reflexivity]|].
    destruct k' as [|k];
      [rewrite Hbord in Ht;
       [discriminate|exact Hs|right; right; right; right; left; reflexivity]|].
    assert (Hnb : ~ on_border (shape img) (S i) (S j) (S k)).
    { intros Hb. rewrite Hbord in Ht; [discriminate|exact Hs|exact Hb]. }
    rewrite Hsh in Hs, Hnb. unfold in_shape, on_border in Hs, Hnb.
    cbn [fst snd] in Hs, Hnb.
    assert (Hw : in_shape (Z.to_nat (hi0 box - lo0 box), Z.to_nat (hi1 box - lo1 box),
                           Z.to_nat (hi2 box - lo2 box)) i j k)
      by (unfold in_shape; cbn [fst snd]; lia).
    rewrite (Hint _ _ _ Hw) in Ht. apply Z.ltb_lt in Ht.
    rewrite crop_item_within in Ht by exact Hin.
    exists (Z.to_nat (lo0 box) + i)%nat, (Z.to_nat (lo1 box) + j)%nat,
      (Z.to_nat (lo2 box) + k)%nat.
    split; [|repeat split; f_equal; lia].
    split; [|exact Ht]. unfold in_shape, box_within in *. cbn [fst snd] in *. lia.
Qed.

Lemma calcMeshWithCrop_keeps_foreground_witness :
  exists box dims blankImg,
    findBBDimensions (np_where (gt0 centre_voxel)) = Return (box, dims) /\
    calcMeshWithCrop_blankImg centre_voxel = Return blankImg /\
    (forall i j k, foreground centre_voxel i j k ->
       item blankImg (S (i - Z.to_nat (lo0 box))) (S (j - Z.to_nat (lo1 box)))
         (S (k - Z.to_nat (lo2 box))) = true) /\
    (forall i' j' k', in_shape (shape blankImg) i' j' k' ->
       item blankImg i' j' k' = true ->
       exists i j k,
         foreground centre_voxel i j k /\
         i' = S (i - Z.to_nat (lo0 box)) /\ j' = S (j - Z.to_nat (lo1 box)) /\
         k' = S (k - Z.to_nat (lo2 box))).
Proof.
  apply (calcMeshWithCrop_keeps_foreground centre_voxel).
  exists 1%nat, 1%nat, 1%nat. unfold foreground, in_shape. simpl. lia.
Defined.

(** ** More on the pipe protocol *)

Section PipeProtocol.

Context {Ratio : Type} (str_ratio : Ratio -> string).
Context (fq_mesh_simplify : string -> list Byte.byte -> child).

Lemma accepted_payload (obj : pyobj) (ratio : Ratio) (w : World) :
  accepted obj = true ->
  exists stream,
    simplify_mesh str_ratio fq_mesh_simplify obj ratio w
    = simplify_mesh str_ratio fq_mesh_simplify (PyBytesIO stream) ratio w /\
    payload obj = drop (tell stream) (getvalue stream).
Proof.
  destruct obj as [s|b|stream|n|]; try discriminate; intros _.
  - exists (BytesIO_new b). split; reflexivity.
  - exists stream. split; reflexivity.
Qed.

Lemma rejected_unchanged (obj : pyobj) (ratio : Ratio) (w : World) :
  accepted obj = false ->
  exists e,
    simplify_mesh str_ratio fq_mesh_simplify obj ratio w = (Raise e, w).
Proof.
  destruct obj as [s|b|stream|n|]; try discriminate; intros _;
    eexists; reflexivity.
Qed.

(** X5.  When [simplify_mesh] returns, it has started exactly one child,
    that child exited with code 0, the bytes returned are the bytes read
    from the response pipe, and the temporary directories are gone: the
    file system is the one before the call. *)
Theorem simplify_mesh_return_is_pipe_content (obj : pyobj) (ratio : Ratio)
  (w w' : World) (b : list Byte.byte) :
  simplify_mesh str_ratio fq_mesh_simplify obj ratio w = (Return b, w') ->
  fs w' = fs w /\
  exists cmd,
    spawned w' = cmd :: spawned w /\
    returncode (fq_mesh_simplify cmd (payload obj)) = 0 /\
    pipe_read (fq_mesh_simplify cmd (payload obj)) = Return b.
Proof.
  destruct (accepted obj) eqn:Hacc.
  - destruct (accepted_payload obj ratio w Hacc) as (stream & -> & ->).
    rewrite simplify_mesh_run. cbv zeta.
    destruct (returncode _ =? 0) eqn:Hrc; [|discriminate].
    destruct (pipe_read _) as [b'|e] eqn:Hread; [|discriminate].
    intros H. inversion H; subst. cbn [fs spawned]. split; [reflexivity|].
    eexists. split; [reflexivity|]. split; [|exact Hread].
    apply Z.eqb_eq. exact Hrc.
  - destruct (rejected_unchanged obj ratio w Hacc) as [e ->]. discriminate.
Qed.

(** X6.  When the child exits with code 0 but opening or reading the
    response pipe raised, that exception is what [simplify_mesh] raises:
    the [finally] block adds nothing and hides nothing. *)
Theorem simplify_mesh_read_error (obj : pyobj) (ratio : Ratio) (w : World) :
  accepted obj = true ->
  exists cmd,
    spawned (simplify_mesh str_ratio fq_mesh_simplify obj ratio w).2
      = cmd :: spawned w /\
    forall e,
      returncode (fq_mesh_simplify cmd (payload obj)) = 0 ->
      pipe_read (fq_mesh_simplify cmd (payload obj)) = Raise e ->
      (simplify_mesh str_ratio fq_mesh_simplify obj ratio w).1 = Raise e.
Proof.
  intros Hacc. destruct (accepted_payload obj ratio w Hacc) as (stream & -> & ->).
  rewrite simplify_mesh_run. cbv zeta. eexists. split.
  - destruct (returncode _ =? 0); [destruct (pipe_read _)|]; reflexivity.
  - intros e Hrc Hread. rewrite Hrc, Hread. reflexivity.
Qed.

(** The file system after a run on a stream, in both outcomes. *)
Lemma simplify_mesh_fs (stream : BytesIO) (ratio : Ratio) (w : World) :
  let d1 := fresh (dom (fs w)) in
  let fs1 := <[d1 := {["mesh.obj"]}]> (fs w) in
  let d2 := fresh (dom fs1) in
  let run := simplify_mesh str_ratio fq_mesh_simplify (PyBytesIO stream) ratio w in
  (exists b, run.1 = Return b /\ fs run.2 = fs w) \/
  (exists e, run.1 = Raise e /\ fs run.2 = <[d2 := {["simple.obj"]}]> fs1).
Proof.
  intros d1 fs1 d2 run. unfold run. rewrite simplify_mesh_run. cbv zeta.
  destruct (returncode _ =? 0); [destruct (pipe_read _)|]; cbn [fst snd fs];
    eauto.
Qed.

(** X7.  Whatever the argument and the outcome, [simplify_mesh] leaves
    every directory that existed before the call as it was, entries
    included: the file system before is a part of the file system after. *)
Theorem simplify_mesh_keeps_existing (obj : pyobj) (ratio : Ratio) (w : World) :
  fs w ⊆ fs (simplify_mesh str_ratio fq_mesh_simplify obj ratio w).2.
Proof.
  destruct (accepted obj) eqn:Hacc.
  - destruct (accepted_payload obj ratio w Hacc) as (stream & -> & _).
    destruct (simplify_mesh_fs stream ratio w) as [(b & _ & ->)|(e & _ & ->)].
    + reflexivity.
    + etrans; [|apply insert_subseteq, fresh_dir_absent].
      apply insert_subseteq, fresh_dir_absent.
  - destruct (rejected_unchanged obj ratio w Hacc) as [e ->]. reflexivity.
Qed.

(** X10.  When a [with temp_pipe(name)] statement returns, for a name that
    can be a directory entry, it was a round trip: the body was given a
    pipe of that name, alone in a directory that did not exist before and
    with every other directory as it was; the body returned, leaving that
    directory with the pipe and nothing else in it; and afterwards the
    directory is gone, and the rest of the file system is as the body left
    it.  So if the body changes no directory, the file system after the
    statement is the one before it. *)
Theorem temp_pipe_round_trip {B} (name : string) (body : path -> M B)
  (w w' : World) (b : B) :
  entry_name name = true ->
  py_with (temp_pipe name) body w = (Return b, w') ->
  exists d w1 w2,
    ~ dir_exists w d /\
    fs w1 = <[d := {[name]}]> (fs w) /\
    body (Path d name) w1 = (Return b, w2) /\
    fs w2 !! d = Some {[name]} /\
    fs w' = delete d (fs w2) /\
    spawned w' = spawned w2 /\
    (fs w2 = fs w1 -> fs w' = fs w).
Proof.
  intros _. unfold py_with. rewrite temp_pipe_enter.
  set (d := fresh (dom (fs w))).
  set (w1 := mkWorld (<[d := {[name]}]> (fs w)) (spawned w)).
  assert (Hd : fs w !! d = None) by apply fresh_dir_absent.
  destruct (body (Path d name) w1) as [[b'|e] w2] eqn:Hbody; [|discriminate].
  unfold temp_pipe, cm_after, bind, os_unlink, os_rmdir, set_fs.
  cbn [fs spawned path_dir path_name].
  destruct (fs w2 !! d) as [ents|] eqn:Hents; [|discriminate].
  destruct (decide (name ∈ ents)) as [Hin|Hout]; [|discriminate].
  cbn [fs spawned]. rewrite lookup_insert_eq.
  destruct (decide (ents ∖ {[name]} = ∅)) as [Hempty|Hrest]; [|discriminate].
  intros H. injection H as <- <-.
  assert (Hone : ents = {[name]}).
  { apply set_eq. intros x. rewrite elem_of_singleton. split.
    - intros Hx. destruct (decide (x = name)) as [Heq|Hne]; [exact Heq|].
      assert (Hx' : x ∈ ents ∖ {[name]}).
      { apply elem_of_difference. split; [exact Hx|].
        rewrite elem_of_singleton. exact Hne. }
      rewrite Hempty in Hx'. apply elem_of_empty in Hx'. destruct Hx'.
    - intros ->. exact Hin. }
  exists d, w1, w2. cbn [fs spawned].
  split; [unfold dir_exists; rewrite Hd; intros [? ?]; discriminate|].
  split; [reflexivity|]. split; [exact Hbody|].
  split; [rewrite Hone in Hents; exact Hents|].
  split; [apply delete_insert_eq|]. split; [reflexivity|].
  intros Hfs. rewrite delete_insert_eq, Hfs. cbn [w1 fs].
  rewrite delete_insert_eq. apply delete_id. exact Hd.
Qed.

End PipeProtocol.

Lemma simplify_mesh_return_is_pipe_content_witness :
  fs (mkWorld ∅ [simplify_command (fun r : string => r)
                   (Path 0 "mesh.obj") (Path 1 "simple.obj") "0.5"])
    = fs empty_world /\
  exists cmd,
    spawned (mkWorld ∅ [simplify_command (fun r : string => r)
                          (Path 0 "mesh.obj") (Path 1 "simple.obj") "0.5"])
      = cmd :: spawned empty_world /\
    returncode (copying_child 0 cmd (payload (PyBytes header_bytes))) = 0 /\
    pipe_read (copying_child 0 cmd (payload (PyBytes header_bytes)))
      = Return header_bytes.
Proof.
  apply (simplify_mesh_return_is_pipe_content (fun r : string => r)
           (copying_child 0) (PyBytes header_bytes) "0.5" empty_world).
  vm_compute. reflexivity.
Defined.


Lemma simplify_mesh_read_error_witness :
  (simplify_mesh (fun r : string => r)
     (unreadable_child (OSError "Interrupted system call"))
     (PyBytes header_bytes) "0.5" empty_world).1
  = Raise (OSError "Interrupted system call").
Proof.
  destruct (simplify_mesh_read_error (fun r : string => r)
              (unreadable_child (OSError "Interrupted system call"))
              (PyBytes header_bytes) "0.5" empty_world eq_refl)
    as (cmd & _ & Hraise).
  apply (Hraise (OSError "Interrupted system call")); reflexivity.
Defined.

Lemma temp_pipe_round_trip_witness :
  exists d w1 w2,
    ~ dir_exists empty_world d /\
    fs w1 = <[d := {["mesh.obj"]}]> (fs empty_world) /\
    ret tt w1 = (Return tt, w2) /\
    fs w2 !! d = Some {["mesh.obj"]} /\
    fs empty_world = delete d (fs w2) /\
    spawned empty_world = spawned w2 /\
    (fs w2 = fs w1 -> fs empty_world = fs empty_world).
Proof.
  apply (temp_pipe_round_trip "mesh.obj" (fun _ : path => ret tt)
           empty_world empty_world tt).
  - reflexivity.
  - vm_compute. reflexivity.
Defined.

(** ** The wait for the response pipe *)

Section FifoProperties.

Context {num : Type} (num_mul num_add : num -> num -> num).
Context (to_float : num -> spec_float).
Context {V : Type}.
Context (march :
  ndarray V -> nat ->
  list (num * num * num) * list (num * num * num) * list (Z * Z * Z)).
Context {Ratio : Type} (str_ratio : Ratio -> string).
Context (fq_mesh_simplify_run : string -> list Byte.byte -> child_run).

(** One run of [simplify_mesh] on a stream, with the wait: as
    [simplify_mesh_run] when the child opens the response pipe; when it
    does not, the call has made both pipes and started the child, and
    there it stays. *)
Lemma simplify_mesh_fifo_run (stream : BytesIO) (ratio : Ratio) (w : World) :
  let d1 := fresh (dom (fs w)) in
  let fs1 := <[d1 := {["mesh.obj"]}]> (fs w) in
  let d2 := fresh (dom fs1) in
  let fs2 := <[d2 := {["simple.obj"]}]> fs1 in
  let cmd :=
    simplify_command str_ratio (Path d1 "mesh.obj") (Path d2 "simple.obj") ratio in
  simplify_mesh_fifo str_ratio fq_mesh_simplify_run (PyBytesIO stream) ratio w
  = match fq_mesh_simplify_run cmd (drop (tell stream) (getvalue stream)) with
    | Opens proc =>
        if returncode proc =? 0 then
          match pipe_read proc with
          | Return b => Ended (Return b) (mkWorld (fs w) (cmd :: spawned w))
          | Raise e => Ended (Raise e) (mkWorld fs2 (cmd :: spawned w))
          end
        else
          Ended (Raise (RuntimeError (error_code_message (returncode proc))))
            (mkWorld fs2 (cmd :: spawned w))
    | NeverOpens _ => Blocked (mkWorld fs2 (cmd :: spawned w))
    end.
Proof.
  intros d1 fs1 d2 fs2 cmd.
  unfold simplify_mesh_fifo, py_with_w. rewrite temp_pipe_enter. fold d1 fs1.
  rewrite temp_pipe_enter. cbn [fs spawned]. fold d2 fs2.
  unfold wbind, Popen_fifo, try_finally_w. cbn [fs spawned bio_read fst].
  fold cmd.
  destruct (fq_mesh_simplify_run cmd (drop (tell stream) (getvalue stream)))
    as [proc|code]; cbn [open_read exit_code]; [|reflexivity].
  unfold ended.
  destruct (returncode proc =? 0) eqn:Hrc.
  - destruct (pipe_read proc) as [b|e]; cbn [ret raise]; [|reflexivity].
    rewrite temp_pipe_exit by (cbn [fs]; apply lookup_insert_eq).
    cbn [fs spawned]. unfold fs2. rewrite delete_insert_eq.
    rewrite (delete_id fs1 d2) by apply fresh_dir_absent.
    rewrite temp_pipe_exit by (cbn [fs]; apply lookup_insert_eq).
    cbn [fs spawned]. unfold fs1. rewrite delete_insert_eq.
    rewrite (delete_id (fs w) d1) by apply fresh_dir_absent.
    reflexivity.
  - destruct (pipe_read proc) as [b|e]; reflexivity.
Qed.

Lemma accepted_payload_fifo (obj : pyobj) (ratio : Ratio) (w : World) :
  accepted obj = true ->
  exists stream,
    simplify_mesh_fifo str_ratio fq_mesh_simplify_run obj ratio w
    = simplify_mesh_fifo str_ratio fq_mesh_simplify_run (PyBytesIO stream) ratio w /\
    payload obj = drop (tell stream) (getvalue stream).
Proof.
  destruct obj as [s|b|stream|n|]; try discriminate; intros _.
  - exists (BytesIO_new b). split; reflexivity.
  - exists stream. split; reflexivity.
Qed.

(** C2, as the code behaves.  On an accepted argument [simplify_mesh]
    makes its two pipes and starts one child on the bytes of the argument.
    If that child opens the response pipe and exits with a code other than
    zero, the call raises [RuntimeError] with the code in its message,
    whatever was read: no bytes are returned.  If the child exits without
    ever opening the response pipe, whatever its code, the call raises
    nothing: it waits in [open(simple_path, 'rb')] for ever, the
    [finally] block with the check of the exit code out of reach. *)
Theorem simplify_mesh_nonzero_exit_or_wait (obj : pyobj) (ratio : Ratio)
  (w : World) :
  accepted obj = true ->
  exists cmd w',
    spawned w' = cmd :: spawned w /\
    (exists d1 d2,
       path_exists w' (Path d1 "mesh.obj") /\
       path_exists w' (Path d2 "simple.obj")) /\
    match fq_mesh_simplify_run cmd (payload obj) with
    | Opens proc =>
        returncode proc <> 0 ->
        simplify_mesh_fifo str_ratio fq_mesh_simplify_run obj ratio w
        = Ended (Raise (RuntimeError
                          ("fq-mesh-simplify returned an error code: "
                           +:+ str_int (returncode proc)))) w'
    | NeverOpens code =>
        simplify_mesh_fifo str_ratio fq_mesh_simplify_run obj ratio w
        = Blocked w'
    end.
Proof.
  intros Hacc.
  destruct (accepted_payload_fifo obj ratio w Hacc) as (stream & -> & ->).
  rewrite simplify_mesh_fifo_run. cbv zeta.
  set (d1 := fresh (dom (fs w))).
  set (fs1 := <[d1 := {["mesh.obj"]}]> (fs w)).
  set (d2 := fresh (dom fs1)).
  set (fs2 := <[d2 := {["simple.obj"]}]> fs1).
  set (cmd := simplify_command _ _ _ _).
  assert (H2 : fs1 !! d2 = None) by apply fresh_dir_absent.
  assert (Hne : d1 <> d2).
  { intros Heq. rewrite <- Heq in H2. unfold fs1 in H2.
    rewrite lookup_insert_eq in H2. discriminate. }
  exists cmd, (mkWorld fs2 (cmd :: spawned w)).
  split; [reflexivity|]. split.
  { exists d1, d2. split.
    - exists {["mesh.obj"]}. cbn [path_dir path_name fs]. split.
      + unfold fs2. rewrite lookup_insert_ne by congruence.
        apply lookup_insert_eq.
      + set_solver.
    - exists {["simple.obj"]}. cbn [path_dir path_name fs]. split.
      + apply lookup_insert_eq.
      + set_solver. }
  destruct (fq_mesh_simplify_run cmd _) as [proc|code]; [|reflexivity].
  intros Hrc. apply Z.eqb_neq in Hrc. rewrite Hrc. reflexivity.
Qed.



End FifoProperties.

(** When every run of the child opens the response pipe, the call ends,
    and ends as [simplify_mesh] says. *)
Lemma simplify_mesh_fifo_opens {Ratio : Type} (str_ratio : Ratio -> string)
  (fq_mesh_simplify : string -> list Byte.byte -> child)
  (obj : pyobj) (ratio : Ratio) (w : World) :
  simplify_mesh_fifo str_ratio
    (fun cmd written => Opens (fq_mesh_simplify cmd written)) obj ratio w
  = ended (simplify_mesh str_ratio fq_mesh_simplify obj ratio) w.
Proof.
  unfold ended.
  destruct obj as [s|b|stream|n|]; try reflexivity.
  - change (simplify_mesh_fifo str_ratio
              (fun cmd written => Opens (fq_mesh_simplify cmd written))
              (PyBytes b) ratio w)
      with (simplify_mesh_fifo str_ratio
              (fun cmd written => Opens (fq_mesh_simplify cmd written))
              (PyBytesIO (BytesIO_new b)) ratio w).
    rewrite simplify_mesh_bytes, simplify_mesh_fifo_run, simplify_mesh_run.
    cbv zeta.
    destruct (returncode _ =? 0); [destruct (pipe_read _)|]; reflexivity.
  - rewrite simplify_mesh_fifo_run, simplify_mesh_run. cbv zeta.
    destruct (returncode _ =? 0); [destruct (pipe_read _)|]; reflexivity.
Qed.

Lemma simplify_mesh_nonzero_exit_or_wait_witness :
  exists cmd w',
    spawned w' = cmd :: spawned empty_world /\
    (exists d1 d2,
       path_exists w' (Path d1 "mesh.obj") /\
       path_exists w' (Path d2 "simple.obj")) /\
    simplify_mesh_fifo (fun r : string => r) (silent_child 127)
      (PyBytes header_bytes) "0.5" empty_world
    = Blocked w'.
Proof.
  apply (simplify_mesh_nonzero_exit_or_wait (fun r : string => r)
           (silent_child 127) (PyBytes header_bytes) "0.5" empty_world).
  reflexivity.
Defined.

(** The run in full: the shell does not find the executable and exits
    with code 127; the call has made directory 0 with [mesh.obj] and
    directory 1 with [simple.obj], has started the child, and is waiting. *)
Example simplify_mesh_waiting_run :
  simplify_mesh_fifo (fun r : string => r) (silent_child 127)
    (PyBytes header_bytes) "0.5" empty_world
  = Blocked
      (mkWorld (<[1%nat := {["simple.obj"]}]> (<[0%nat := {["mesh.obj"]}]> ∅))
         [simplify_command (fun r : string => r)
            (Path 0 "mesh.obj") (Path 1 "simple.obj") "0.5"]).
Proof. vm_compute. reflexivity. Qed.

(** ** The shape of the OBJ text *)

Lemma encode_utf8_app a b :
  encode_utf8 (a +:+ b) = encode_utf8 a ++ encode_utf8 b.
Proof.
  unfold encode_utf8, list_byte_of_string.
  induction a as [|c a IH]; [reflexivity|].
  change (String c a +:+ b) with (String c (a +:+ b)).
  cbn [list_ascii_of_string map app]. rewrite IH. reflexivity.
Qed.

Lemma count_newlines_app l1 l2 :
  count_newlines (l1 ++ l2) = (count_newlines l1 + count_newlines l2)%nat.
Proof. unfold count_newlines. rewrite List.filter_app, length_app. reflexivity. Qed.

Lemma byte_not_newline (c : ascii) :
  Ascii.eqb c "010"%char = false -> Byte.eqb Byte.x0a (byte_of_ascii c) = false.
Proof.
  destruct c as [[] [] [] [] [] [] [] []]; intros H;
    first [reflexivity | discriminate H].
Qed.

Lemma digit_not_newline (c : ascii) :
  is_digit c = true -> Ascii.eqb c "010"%char = false.
Proof.
  destruct c as [[] [] [] [] [] [] [] []]; intros H;
    first [reflexivity | discriminate H].
Qed.

Lemma newline_free_count s :
  newline_free s = true -> count_newlines (encode_utf8 s) = 0%nat.
Proof.
  induction s as [|c s IH]; [reflexivity|].
  cbn [newline_free]. intros H. apply andb_prop in H as [Hc Hs].
  apply negb_true_iff in Hc.
  unfold count_newlines, encode_utf8, list_byte_of_string in *.
  cbn [list_ascii_of_string map List.filter]. rewrite (byte_not_newline c Hc).
  exact (IH Hs).
Qed.

Lemma newline_free_app a b :
  newline_free (a +:+ b) = newline_free a && newline_free b.
Proof.
  induction a as [|c a IH]; [reflexivity|].
  simpl. rewrite IH, andb_assoc. reflexivity.
Qed.

Lemma all_digits_newline_free s : all_digits s = true -> newline_free s = true.
Proof.
  induction s as [|c s IH]; [reflexivity|].
  cbn [all_digits newline_free]. intros H. apply andb_prop in H as [Hc Hs].
  rewrite (digit_not_newline c Hc), (IH Hs). reflexivity.
Qed.

Lemma string_of_uint_newline_free (d : Decimal.uint) :
  newline_free (NilZero.string_of_uint d) = true.
Proof.
  unfold NilZero.string_of_uint.
  destruct d; try reflexivity;
    apply all_digits_newline_free, string_of_uint_digits.
Qed.

Lemma str_int_newline_free n : newline_free (str_int n) = true.
Proof.
  unfold str_int. destruct (Z.to_int n) as [d|d]; cbn [NilZero.string_of_int].
  - apply string_of_uint_newline_free.
  - cbn [newline_free]. rewrite string_of_uint_newline_free. reflexivity.
Qed.

Lemma dec_fixed_newline_free w n : newline_free (dec_fixed w n) = true.
Proof. apply all_digits_newline_free, dec_fixed_digits. Qed.

Lemma format_f_newline_free p x : newline_free (format_f p x) = true.
Proof.
  assert (Hs : forall s, newline_free (sign_str s) = true) by (intros []; reflexivity).
  assert (Hf : forall n, newline_free (fixed_point p n) = true).
  { intros n. unfold fixed_point.
    rewrite !newline_free_app, str_int_newline_free, dec_fixed_newline_free.
    reflexivity. }
  destruct x as [s|s| |s m e]; cbn [format_f];
    rewrite ?newline_free_app, ?Hs, ?Hf; reflexivity.
Qed.

Lemma string_app_assoc a b c : a +:+ (b +:+ c) = (a +:+ b) +:+ c.
Proof.
  induction a as [|x a IH]; [reflexivity|].
  change (String x a +:+ (b +:+ c)) with (String x (a +:+ (b +:+ c))).
  rewrite IH. reflexivity.
Qed.

(** A line: text without a newline, then one newline. *)
Lemma count_newlines_line body :
  newline_free body = true ->
  count_newlines (encode_utf8 (body +:+ newline)) = 1%nat.
Proof.
  intros H. rewrite encode_utf8_app, count_newlines_app.
  rewrite (newline_free_count _ H). reflexivity.
Qed.

Lemma count_newlines_flat_map {X} (f : X -> list Byte.byte) (l : list X) :
  (forall x, count_newlines (f x) = 1%nat) ->
  count_newlines (flat_map f l) = length l.
Proof.
  intros Hf. induction l as [|x l IH]; [reflexivity|].
  cbn [flat_map length]. rewrite count_newlines_app, Hf, IH. reflexivity.
Qed.

Section ObjText.

Context {num : Type} (to_float : num -> spec_float).

Lemma vertex_line_one_newline (v : num * num * num) :
  count_newlines (encode_utf8 (vertex_line to_float v)) = 1%nat.
Proof.
  destruct v as [[x y] z]. unfold vertex_line.
  rewrite !string_app_assoc. apply count_newlines_line.
  rewrite !newline_free_app, !format_f_newline_free. reflexivity.
Qed.

Lemma face_line_one_newline (f : Z * Z * Z) :
  count_newlines (encode_utf8 (face_line f)) = 1%nat.
Proof.
  destruct f as [[v1 v2] v3]. unfold face_line.
  rewrite !string_app_assoc. apply count_newlines_line.
  rewrite !newline_free_app, !str_int_newline_free. reflexivity.
Qed.

(** X11.  The text [generate_obj] writes has exactly one line for the
    comment, one per vertex and one per face, whatever the coordinates and
    indices are: no field, not even [nan], [inf] or a negative index,
    brings a newline of its own. *)
Theorem generate_obj_line_count (vs : list (num * num * num))
  (fs : list (Z * Z * Z)) :
  count_newlines (getvalue (generate_obj to_float vs fs))
  = S (length vs + length fs).
Proof.
  destruct (generate_obj_value to_float vs fs) as [-> _].
  rewrite !count_newlines_app.
  rewrite (count_newlines_flat_map _ vs vertex_line_one_newline).
  rewrite (count_newlines_flat_map _ fs face_line_one_newline).
  reflexivity.
Qed.

End ObjText.

(** ** The tag dictionary *)

Lemma tag_keys_elem (k : string) :
  k = "downsample_interval_x" \/ k = "dvid_offset_x" \/
  k = "dvid_offset_y" \/ k = "dvid_offset_z" ->
  k ∈ tag_keys.
Proof.
  unfold tag_keys. rewrite !elem_of_union, !elem_of_singleton. tauto.
Qed.

Section TagDictionary.

Context {num : Type} (num_add : num -> num -> num) (zero one : num).
Context {val : Type} (float_of_val : val -> result num).

Local Ltac tag_lookup :=
  repeat first [ rewrite lookup_insert_eq
               | rewrite lookup_insert_ne by discriminate ];
  reflexivity.

Lemma dom_insert_within (k : string) (x : tagentry val num)
  (d0 d : gmap string (tagentry val num)) :
  k ∈ tag_keys ->
  dom d ⊆ dom d0 ∪ tag_keys -> dom (<[k := x]> d) ⊆ dom d0 ∪ tag_keys.
Proof.
  intros Hk Hd. rewrite dom_insert_L. apply union_least; [|exact Hd].
  apply singleton_subseteq_l, elem_of_union_r, Hk.
Qed.

(** What one page does to each of the four entries. *)
Lemma getTagDictionary_page_lookup (d d' : gmap string (tagentry val num))
  (page : gmap string val) :
  getTagDictionary_page num_add one float_of_val d page = Return d' ->
  d' !! "dvid_offset_x"
    = match page !! "31232" with
      | Some v => Some (Raw v)
      | None => d !! "dvid_offset_x"
      end /\
  d' !! "dvid_offset_y"
    = match page !! "31233" with
      | Some v => Some (Raw v)
      | None => d !! "dvid_offset_y"
      end /\
  d' !! "dvid_offset_z"
    = match page !! "31234" with
      | Some v => Some (Raw v)
      | None => d !! "dvid_offset_z"
      end /\
  match page !! "31235" with
  | Some v =>
      exists x, float_of_val v = Return x /\
                d' !! "downsample_interval_x" = Some (Flt (num_add x one))
  | None => d' !! "downsample_interval_x" = d !! "downsample_interval_x"
  end /\
  dom d' ⊆ dom d ∪ tag_keys.
Proof.
  unfold getTagDictionary_page, tag_keys.
  destruct (page !! "31232") as [vx|]; destruct (page !! "31233") as [vy|];
    destruct (page !! "31234") as [vz|]; destruct (page !! "31235") as [vd|];
    try (destruct (float_of_val vd) as [x|e]; [|discriminate]);
    cbn [rbind]; intros [= <-];
    (split; [solve [tag_lookup]|]); (split; [solve [tag_lookup]|]);
    (split; [solve [tag_lookup]|]);
    (split;
     [first [ solve [tag_lookup]
            | eexists; split; [reflexivity|solve [tag_lookup]] ]|]);
    repeat (apply dom_insert_within; [apply tag_keys_elem; tauto|]);
    apply union_subseteq_l.
Qed.

Lemma last_cons_omap (code : string) (page : gmap string val)
  (rest : list (gmap string val)) :
  last_tag code (page :: rest)
  = match last_tag code rest with
    | Some v => Some v
    | None => page !! code
    end.
Proof.
  unfold last_tag. cbn [omap list_omap].
  destruct (page !! code) as [v|]; [|destruct (last _); reflexivity].
  rewrite last_cons. reflexivity.
Qed.

(** The loop from any dictionary: the last page that has a tag decides
    its entry, and an entry no page touches stays. *)
Lemma getTagDictionary_loop_lookup (pages : list (gmap string val)) :
  forall d0 d : gmap string (tagentry val num),
  getTagDictionary_loop num_add one float_of_val d0 pages = Return d ->
  d !! "dvid_offset_x"
    = match last_tag "31232" pages with
      | Some v => Some (Raw v)
      | None => d0 !! "dvid_offset_x"
      end /\
  d !! "dvid_offset_y"
    = match last_tag "31233" pages with
      | Some v => Some (Raw v)
      | None => d0 !! "dvid_offset_y"
      end /\
  d !! "dvid_offset_z"
    = match last_tag "31234" pages with
      | Some v => Some (Raw v)
      | None => d0 !! "dvid_offset_z"
      end /\
  match last_tag "31235" pages with
  | Some v =>
      exists x, float_of_val v = Return x /\
                d !! "downsample_interval_x" = Some (Flt (num_add x one))
  | None => d !! "downsample_interval_x" = d0 !! "downsample_interval_x"
  end /\
  dom d ⊆ dom d0 ∪ tag_keys.
Proof.
  induction pages as [|page rest IH]; intros d0 d.
  - cbn [getTagDictionary_loop]. intros H. inversion H; subst.
    unfold last_tag. cbn. repeat split; set_solver.
  - cbn [getTagDictionary_loop].
    destruct (getTagDictionary_page num_add one float_of_val d0 page) as [d1|e] eqn:Hp; [|discriminate].
    cbn [rbind]. intros Hl.
    destruct (getTagDictionary_page_lookup _ _ _ Hp) as (Px & Py & Pz & Pd & Pdom).
    destruct (IH _ _ Hl) as (Lx & Ly & Lz & Ld & Ldom).
    rewrite !last_cons_omap.
    split; [|split; [|split; [|split]]].
    + rewrite Lx. destruct (last_tag "31232" rest); [reflexivity|exact Px].
    + rewrite Ly. destruct (last_tag "31233" rest); [reflexivity|exact Py].
    + rewrite Lz. destruct (last_tag "31234" rest); [reflexivity|exact Pz].
    + destruct (last_tag "31235" rest) as [v|]; [exact Ld|].
      destruct (page !! "31235") as [v|].
      * destruct Pd as (x & Hx & Hd). exists x. split; [exact Hx|].
        rewrite Ld. exact Hd.
      * rewrite Ld. exact Pd.
    + etrans; [exact Ldom|].
      apply union_least; [exact Pdom|apply union_subseteq_r].
Qed.

Lemma dom_set_default (key : string) (x : tagentry val num)
  (d : gmap string (tagentry val num)) :
  dom (set_default key x d) = {[key]} ∪ dom d.
Proof.
  unfold set_default. destruct (d !! key) as [e|] eqn:E.
  - symmetry. apply subseteq_union_1_L, singleton_subseteq_l.
    apply elem_of_dom. eauto.
  - apply dom_insert_L.
Qed.

Lemma lookup_set_default (key key' : string) (x : tagentry val num)
  (d : gmap string (tagentry val num)) :
  set_default key x d !! key'
  = match d !! key' with
    | Some e => Some e
    | None => if decide (key = key') then Some x else None
    end.
Proof.
  unfold set_default. destruct (d !! key) as [e|] eqn:E.
  - destruct (d !! key') as [e'|] eqn:E'; [reflexivity|].
    destruct (decide (key = key')) as [->|]; [congruence|reflexivity].
  - rewrite lookup_insert. destruct (decide (key = key')) as [->|].
    + rewrite E. reflexivity.
    + destruct (d !! key'); reflexivity.
Qed.

(** The dictionary returned, in terms of the loop. *)
Lemma getTagDictionary_inv (pages : list (gmap string val))
  (d : gmap string (tagentry val num)) :
  getTagDictionary num_add zero one float_of_val pages = Return d ->
  exists d1,
    getTagDictionary_loop num_add one float_of_val ∅ pages = Return d1 /\
    d = set_default "dvid_offset_z" (Flt zero)
          (set_default "dvid_offset_y" (Flt zero)
             (set_default "dvid_offset_x" (Flt zero)
                (set_default "downsample_interval_x" (Flt one) d1))).
Proof.
  unfold getTagDictionary. destruct pages as [|page rest]; [discriminate|].
  destruct (getTagDictionary_loop num_add one float_of_val ∅ (page :: rest)) as [d1|e]; [|discriminate].
  cbn [rbind]. intros H. inversion H. exists d1. split; reflexivity.
Qed.

(** The keys of the dictionary returned. *)
Lemma getTagDictionary_dom (pages : list (gmap string val))
  (d : gmap string (tagentry val num)) :
  getTagDictionary num_add zero one float_of_val pages = Return d ->
  dom d = tag_keys.
Proof.
  intros H. destruct (getTagDictionary_inv _ _ H) as (d1 & Hl & ->).
  destruct (getTagDictionary_loop_lookup _ _ _ Hl) as (_ & _ & _ & _ & Hdom).
  rewrite !dom_set_default. rewrite dom_empty_L, (left_id_L ∅ (∪)) in Hdom.
  apply (anti_symm (⊆)).
  - repeat (apply union_least;
            [apply singleton_subseteq_l, tag_keys_elem; tauto|]).
    exact Hdom.
  - unfold tag_keys. intros k.
    rewrite !elem_of_union, !elem_of_singleton. tauto.
Qed.

(** X12.  The dictionary [getTagDictionary] returns has exactly the four
    keys [downsample_interval_x], [dvid_offset_x], [dvid_offset_y] and
    [dvid_offset_z], whatever tags the pages carry: a later [tags[key]]
    on one of them cannot raise [KeyError]. *)
Theorem getTagDictionary_keys (pages : list (gmap string val))
  (d : gmap string (tagentry val num)) :
  getTagDictionary num_add zero one float_of_val pages = Return d ->
  dom d = tag_keys.
Proof. apply getTagDictionary_dom. Qed.

(** X13.  Each offset entry of the dictionary is the value, as read, of
    its tag (31232, 31233, 31234 for x, y, z) on the last page that has
    the tag, and the float [0.0] when no page has it. *)
Theorem getTagDictionary_offsets (pages : list (gmap string val))
  (d : gmap string (tagentry val num)) :
  getTagDictionary num_add zero one float_of_val pages = Return d ->
  d !! "dvid_offset_x"
    = Some (match last_tag "31232" pages with
            | Some v => Raw v
            | None => Flt zero
            end) /\
  d !! "dvid_offset_y"
    = Some (match last_tag "31233" pages with
            | Some v => Raw v
            | None => Flt zero
            end) /\
  d !! "dvid_offset_z"
    = Some (match last_tag "31234" pages with
            | Some v => Raw v
            | None => Flt zero
            end).
Proof.
  intros H. destruct (getTagDictionary_inv _ _ H) as (d1 & Hl & ->).
  destruct (getTagDictionary_loop_lookup _ _ _ Hl) as (Lx & Ly & Lz & _ & _).
  rewrite lookup_empty in Lx, Ly, Lz.
  rewrite !lookup_set_default, Lx, Ly, Lz.
  destruct (last_tag "31232" pages), (last_tag "31233" pages),
    (last_tag "31234" pages); repeat split; reflexivity.
Qed.

(** X14.  The entry [downsample_interval_x] is always a float: the value
    of tag 31235 on the last page that has it, converted by [float] and
    raised by [1.0], and [1.0] itself when no page has the tag. *)
Theorem getTagDictionary_downsample (pages : list (gmap string val))
  (d : gmap string (tagentry val num)) :
  getTagDictionary num_add zero one float_of_val pages = Return d ->
  match last_tag "31235" pages with
  | Some v =>
      exists x, float_of_val v = Return x /\
                d !! "downsample_interval_x" = Some (Flt (num_add x one))
  | None => d !! "downsample_interval_x" = Some (Flt one)
  end.
Proof.
  intros H. destruct (getTagDictionary_inv _ _ H) as (d1 & Hl & ->).
  destruct (getTagDictionary_loop_lookup _ _ _ Hl) as (_ & _ & _ & Ld & _).
  destruct (last_tag "31235" pages) as [v|].
  - destruct Ld as (x & Hx & Hd). exists x. split; [exact Hx|].
    rewrite !lookup_set_default, Hd. reflexivity.
  - rewrite lookup_empty in Ld. rewrite !lookup_set_default, Ld. reflexivity.
Qed.

(** The loop returns exactly when [float] accepts the value of tag 31235
    on every page that has it. *)
Lemma getTagDictionary_loop_returns (pages : list (gmap string val)) :
  forall d0 : gmap string (tagentry val num),
  (exists d, getTagDictionary_loop num_add one float_of_val d0 pages = Return d) <->
  Forall (fun page : gmap string val =>
            forall v, page !! "31235" = Some v ->
                      exists x, float_of_val v = Return x) pages.
Proof.
  induction pages as [|page rest IH]; intros d0.
  - split; [constructor|]. intros _. eexists. reflexivity.
  - cbn [getTagDictionary_loop]. split.
    + intros [d Hd].
      destruct (getTagDictionary_page num_add one float_of_val d0 page) as [d1|e] eqn:Hp; [|discriminate].
      constructor.
      * intros v Hv.
        destruct (getTagDictionary_page_lookup _ _ _ Hp) as (_ & _ & _ & Pd & _).
        rewrite Hv in Pd. destruct Pd as (x & Hx & _). eauto.
      * apply (IH d1). eauto.
    + intros HF. inversion HF as [|? ? Hpage Hrest]; subst.
      assert (Hstep : exists d1, getTagDictionary_page num_add one float_of_val d0 page = Return d1).
      { unfold getTagDictionary_page.
        destruct (page !! "31235") as [v|] eqn:Hv; [|eauto].
        destruct (Hpage v eq_refl) as [x ->]. cbn [rbind]. eauto. }
      destruct Hstep as [d1 ->]. cbn [rbind]. apply IH. exact Hrest.
Qed.

(** X15.  [getTagDictionary] returns exactly when the file has at least
    one page and [float] accepts the value of tag 31235 on every page
    that has it; the offsets are not converted here, so they cannot make
    it fail. *)
Theorem getTagDictionary_returns_iff (pages : list (gmap string val)) :
  (exists d, getTagDictionary num_add zero one float_of_val pages = Return d) <->
  pages <> [] /\
  Forall (fun page : gmap string val =>
            forall v, page !! "31235" = Some v ->
                      exists x, float_of_val v = Return x) pages.
Proof.
  rewrite <- (getTagDictionary_loop_returns pages ∅). unfold getTagDictionary.
  destruct pages as [|page rest].
  - split; [intros [d H]; discriminate|intros [H _]; congruence].
  - split.
    + intros [d H]. split; [discriminate|].
      destruct (getTagDictionary_loop num_add one float_of_val ∅ (page :: rest)) as [d1|e]; [eauto|discriminate].
    + intros [_ [d1 ->]]. cbn [rbind]. eauto.
Qed.

End TagDictionary.

Lemma getTagDictionary_keys_witness : dom sample_tags = tag_keys.
Proof.
  apply (getTagDictionary_keys Z.add 0 1 (fun v : Z => Return v) sample_pages).
  vm_compute. reflexivity.
Defined.

Lemma getTagDictionary_offsets_witness :
  sample_tags !! "dvid_offset_x"
    = Some (match last_tag "31232" sample_pages with
            | Some v => Raw v
            | None => Flt 0
            end) /\
  sample_tags !! "dvid_offset_y"
    = Some (match last_tag "31233" sample_pages with
            | Some v => Raw v
            | None => Flt 0
            end) /\
  sample_tags !! "dvid_offset_z"
    = Some (match last_tag "31234" sample_pages with
            | Some v => Raw v
            | None => Flt 0
            end).
Proof.
  apply (getTagDictionary_offsets Z.add 0 1 (fun v : Z => Return v) sample_pages).
  vm_compute. reflexivity.
Defined.

Lemma getTagDictionary_downsample_witness :
  match last_tag "31235" sample_pages with
  | Some v =>
      exists x, Return v = Return x /\
                sample_tags !! "downsample_interval_x" = Some (Flt (x + 1))
  | None => sample_tags !! "downsample_interval_x" = Some (Flt 1)
  end.
Proof.
  apply (getTagDictionary_downsample Z.add 0 1 (fun v : Z => Return v)
           sample_pages sample_tags).
  vm_compute. reflexivity.
Defined.

Example getTagDictionary_sample :
  getTagDictionary Z.add 0 1 (fun v : Z => Return v) sample_pages
  = Return sample_tags /\
  last_tag "31232" sample_pages = Some 7 /\
  last_tag "31235" sample_pages = Some 1 /\
  last_tag "31233" sample_pages = None.
Proof. repeat split; vm_compute; reflexivity. Qed.

(** ** The legacy writers *)

Lemma opened_app (t1 t2 : list event) : opened (t1 ++ t2) = opened t1 ++ opened t2.
Proof. unfold opened. apply flat_map_app. Qed.

Lemma shell_commands_app (t1 t2 : list event) :
  shell_commands (t1 ++ t2) = shell_commands t1 ++ shell_commands t2.
Proof. unfold shell_commands. apply flat_map_app. Qed.

Lemma file_events_app (t1 t2 : list event) :
  file_events (t1 ++ t2) = file_events t1 ++ file_events t2.
Proof. unfold file_events. apply List.filter_app. Qed.

Local Ltac trace_simpl :=
  rewrite ?opened_app, ?shell_commands_app, ?file_events_app;
  cbn [opened shell_commands file_events flat_map List.filter app];
  rewrite ?app_nil_r, <- ?app_assoc; cbn [app].

(** Two computations that start alike and whose continuations end the
    same way and do the same to files end the same way and do the same to
    files. *)
Lemma bbind_same_files {A B} (c : Batch A) (k1 k2 : A -> Batch B) :
  (forall a t, (k1 a t).1 = (k2 a t).1 /\
               file_events (k1 a t).2 = file_events (k2 a t).2) ->
  forall t, (bbind c k1 t).1 = (bbind c k2 t).1 /\
            file_events (bbind c k1 t).2 = file_events (bbind c k2 t).2.
Proof.
  intros H t. unfold bbind. destruct (c t) as [[a|e] t'].
  - apply H.
  - split; reflexivity.
Qed.

Section LegacyWriters.

Context {num : Type} (num_mul num_add : num -> num -> num).
Context (to_float : num -> spec_float) (zero one : num).
Context {val : Type} (float_of_val : val -> result num).
Context (tiff_pages : list event -> string -> result (list (gmap string val))).
Context (open_w : list event -> string -> result unit).
Context (march :
  ndarray Z -> nat ->
  list (num * num * num) * list (num * num * num) * list (Z * Z * Z)).
Context {Ratio : Type} (str_ratio : Ratio -> string).

(** In a dictionary [getTagDictionary] returned, every one of the four
    lookups finds an entry. *)
Lemma getTagDictionary_lookups (pages : list (gmap string val))
  (tags : gmap string (tagentry val num)) :
  getTagDictionary num_add zero one float_of_val pages = Return tags ->
  exists e0 e1 e2 e3,
    tags !! "downsample_interval_x" = Some e0 /\
    tags !! "dvid_offset_x" = Some e1 /\
    tags !! "dvid_offset_y" = Some e2 /\
    tags !! "dvid_offset_z" = Some e3.
Proof.
  intros H. pose proof (getTagDictionary_dom _ _ _ _ _ _ H) as Hdom.
  assert (Hk : forall k, k ∈ tag_keys -> is_Some (tags !! k)).
  { intros k Hk. apply elem_of_dom. rewrite Hdom. exact Hk. }
  destruct (Hk "downsample_interval_x") as [e0 H0]; [apply tag_keys_elem; tauto|].
  destruct (Hk "dvid_offset_x") as [e1 H1]; [apply tag_keys_elem; tauto|].
  destruct (Hk "dvid_offset_y") as [e2 H2]; [apply tag_keys_elem; tauto|].
  destruct (Hk "dvid_offset_z") as [e3 H3]; [apply tag_keys_elem; tauto|].
  exists e0, e1, e2, e3. auto.
Qed.

(** The two ways a run of [calcMesh] can end. *)
Lemma calcMesh_outcome (stackname : string) (labelStack : ndarray Z)
  (location : string) (simplify_ratio : Ratio) (t : list event) :
  let run :=
    calcMesh num_mul num_add to_float zero one float_of_val tiff_pages open_w
      march str_ratio stackname labelStack location simplify_ratio t in
  (exists e, run.1 = Fail (Builtin e) /\
             opened run.2 = opened t /\
             shell_commands run.2 = shell_commands t) \/
  (run.1 = Done tt /\
   opened run.2 = opened t ++ [mesh_file location stackname] /\
   shell_commands run.2
   = shell_commands t
     ++ ["fq-mesh-simplify " +:+ dquote
         +:+ ("./" +:+ mesh_file location stackname) +:+ dquote +:+ " "
         +:+ dquote +:+ ("./" +:+ location +:+ basename stackname +:+ ".smooth.obj")
         +:+ dquote +:+ " " +:+ str_ratio simplify_ratio]).
Proof.
  intros run. unfold run, calcMesh, bbind, ask, lift.
  destruct (tiff_pages t stackname) as [pages|e];
    [|left; exists e; repeat split; reflexivity].
  cbn [bret bfail].
  destruct (getTagDictionary num_add zero one float_of_val pages) as [tags|e] eqn:Ht;
    [|left; exists e; repeat split; reflexivity].
  destruct (getTagDictionary_lookups _ _ Ht) as (e0 & e1 & e2 & e3 & H0 & H1 & H2 & H3).
  cbn [bret bfail]. unfold dict_get. rewrite H0. cbn [bret bfail].
  destruct (float_of_entry float_of_val e0) as [ds|e];
    [|left; exists e; repeat split; reflexivity].
  cbn [bret bfail]. rewrite H1. cbn [bret bfail].
  destruct (float_of_entry float_of_val e1) as [xo|e];
    [|left; exists e; repeat split; reflexivity].
  cbn [bret bfail]. rewrite H2. cbn [bret bfail].
  destruct (float_of_entry float_of_val e2) as [yo|e];
    [|left; exists e; repeat split; reflexivity].
  cbn [bret bfail]. rewrite H3. cbn [bret bfail].
  destruct (float_of_entry float_of_val e3) as [zo|e];
    [|left; exists e; repeat split; reflexivity].
  cbn [bret bfail emit].
  destruct (march (transpose labelStack) 3) as [[vs ns] fs]. cbn [emit].
  destruct (open_w _ _) as [[]|e]; cbn [bret bfail emit fst snd].
  - right. split; [reflexivity|]. unfold mesh_file. split; trace_simpl; reflexivity.
  - left. exists e. split; [reflexivity|]. split; trace_simpl; reflexivity.
Qed.

(** X16.  When [calcMesh] returns, it has opened exactly one file for
    writing, [location] followed by the base name of the stack and
    [.obj], and run exactly one command, the simplifier on that file with
    both paths in double quotes and the ratio as given. *)
Theorem calcMesh_returns_one_file (stackname : string) (labelStack : ndarray Z)
  (location : string) (simplify_ratio : Ratio) (t t' : list event) :
  calcMesh num_mul num_add to_float zero one float_of_val tiff_pages open_w
    march str_ratio stackname labelStack location simplify_ratio t
  = (Done tt, t') ->
  opened t' = opened t ++ [mesh_file location stackname] /\
  shell_commands t'
  = shell_commands t
    ++ ["fq-mesh-simplify " +:+ dquote
        +:+ ("./" +:+ mesh_file location stackname) +:+ dquote +:+ " "
        +:+ dquote +:+ ("./" +:+ location +:+ basename stackname +:+ ".smooth.obj")
        +:+ dquote +:+ " " +:+ str_ratio simplify_ratio].
Proof.
  intros Hrun.
  pose proof (calcMesh_outcome stackname labelStack location simplify_ratio t)
    as Hc.
  cbv zeta in Hc. rewrite Hrun in Hc. cbn [fst snd] in Hc.
  destruct Hc as [(e & He & _)|(_ & Ho & Hs)]; [discriminate|].
  split; assumption.
Qed.

(** X17.  [calcMeshWithOffsets] and [calcMesh] end the same way on the
    same arguments and do the same to files: the same file opened, the
    same text written in the same pieces.  They differ only in the command
    line they print and run. *)
Theorem calcMeshWithOffsets_same_file (stackname : string)
  (labelStack : ndarray Z) (location : string) (simplify : Ratio)
  (t : list event) :
  (calcMeshWithOffsets num_mul num_add to_float zero one float_of_val
     tiff_pages open_w march str_ratio stackname labelStack location simplify t).1
  = (calcMesh num_mul num_add to_float zero one float_of_val tiff_pages open_w
       march str_ratio stackname labelStack location simplify t).1 /\
  file_events
    (calcMeshWithOffsets num_mul num_add to_float zero one float_of_val
       tiff_pages open_w march str_ratio stackname labelStack location simplify t).2
  = file_events
      (calcMesh num_mul num_add to_float zero one float_of_val tiff_pages open_w
         march str_ratio stackname labelStack location simplify t).2.
Proof.
  revert t. unfold calcMeshWithOffsets, calcMesh.
  do 10 (apply bbind_same_files; intros ?). cbv zeta.
  apply bbind_same_files; intros _.
  destruct (march (transpose labelStack) 3) as [[vs ns] fs].
  do 9 (apply bbind_same_files; intros _).
  intros t. unfold bbind, emit. cbn [fst snd].
  split; [reflexivity|]. trace_simpl. reflexivity.
Qed.

End LegacyWriters.

(** ** [main] *)

Lemma after_last_slash_app (a b : string) :
  after_last_slash (a +:+ b)
  = match after_last_slash b with
    | Some r => Some r
    | None => option_map (fun r => r +:+ b) (after_last_slash a)
    end.
Proof.
  induction a as [|c a IH].
  - change (EmptyString +:+ b) with b. destruct (after_last_slash b); reflexivity.
  - change (String c a +:+ b) with (String c (a +:+ b)).
    cbn [after_last_slash]. rewrite IH.
    destruct (after_last_slash b) as [r|]; [reflexivity|].
    destruct (after_last_slash a) as [r|]; [reflexivity|].
    destruct (Ascii.eqb c "/"%char); reflexivity.
Qed.

Lemma after_last_slash_no_slash (s b : string) :
  after_last_slash s = Some b -> after_last_slash b = None.
Proof.
  revert b. induction s as [|c s IH]; intros b; [discriminate|].
  cbn [after_last_slash]. destruct (after_last_slash s) as [r|] eqn:E.
  - intros [= <-]. apply IH. reflexivity.
  - destruct (Ascii.eqb c "/"%char); [|discriminate].
    intros [= <-]. exact E.
Qed.

(** A base name has no slash. *)
Lemma basename_no_slash (s : string) : after_last_slash (basename s) = None.
Proof.
  unfold basename. destruct (after_last_slash s) as [b|] eqn:E; [|exact E].
  exact (after_last_slash_no_slash _ _ E).
Qed.

Lemma substring_prefix (x y : string) :
  substring 0 (String.length x) (x +:+ y) = x.
Proof.
  induction x as [|c x IH].
  - destruct y; reflexivity.
  - change (String c x +:+ y) with (String c (x +:+ y)).
    cbn [String.length substring]. rewrite IH. reflexivity.
Qed.

Lemma drop_last4_obj (x : string) : drop_last4 (x +:+ ".obj") = x.
Proof.
  unfold drop_last4. rewrite string_length_app.
  replace (String.length x + String.length ".obj" - 4)%nat with (String.length x)
    by (cbn [String.length]; lia).
  apply substring_prefix.
Qed.

(** The name [main] derives from the file [calcMesh] wrote for a stack is
    the base name of the stack, when the output folder is empty or ends
    in a slash. *)
Lemma mesh_file_name (meshes stack : string) :
  meshes = EmptyString \/ after_last_slash meshes = Some EmptyString ->
  drop_last4 (basename (mesh_file meshes stack)) = basename stack.
Proof.
  intros Hm. unfold mesh_file.
  assert (Hb : after_last_slash (basename stack +:+ ".obj") = None).
  { rewrite after_last_slash_app. cbn [after_last_slash].
    rewrite basename_no_slash. reflexivity. }
  assert (Hn : basename (meshes +:+ basename stack +:+ ".obj")
               = basename stack +:+ ".obj").
  { unfold basename at 1. rewrite after_last_slash_app, Hb.
    destruct Hm as [-> | ->]; reflexivity. }
  rewrite Hn. apply drop_last4_obj.
Qed.

Lemma py_in_In (x : string) (l : list string) : In x l -> py_in x l = true.
Proof.
  intros H. unfold py_in. apply existsb_exists. exists x.
  split; [exact H|apply String.eqb_refl].
Qed.

(** X20.  A run after a successful one skips the stack: when the output
    folder given to [main] is empty or ends in a slash and the listing of
    its [.obj] files holds the file [calcMesh] writes for a stack, the
    base name of that stack is in [alreadyDone]. *)
Theorem written_stack_is_done (meshes stack : string) (listing : list string) :
  meshes = EmptyString \/ after_last_slash meshes = Some EmptyString ->
  In (mesh_file meshes stack) listing ->
  py_in (basename stack)
    (map (fun i => drop_last4 (basename i)) listing) = true.
Proof.
  intros Hm Hin. apply py_in_In. apply in_map_iff.
  exists (mesh_file meshes stack). split; [|exact Hin].
  apply mesh_file_name. exact Hm.
Qed.

Lemma written_stack_is_done_witness :
  py_in (basename "in/b.tif")
    (map (fun i => drop_last4 (basename i))
       ["out/a.tif.obj"; "out/b.tif.obj"]) = true.
Proof.
  apply (written_stack_is_done "out/" "in/b.tif").
  - right. reflexivity.
  - right. left. reflexivity.
Defined.

(** Without the slash the name does not come back: the mesh of [b.tif]
    written to the folder argument [out] is the file [outb.tif.obj]. *)
Example mesh_file_without_slash :
  drop_last4 (basename (mesh_file "out" "in/b.tif")) = "outb.tif".
Proof. reflexivity. Qed.

Section MainProperties.

Context {num : Type} (num_mul num_add : num -> num -> num).
Context (to_float : num -> spec_float) (zero one : num).
Context {val : Type} (float_of_val : val -> result num).
Context (tiff_pages : list event -> string -> result (list (gmap string val))).
Context (open_w : list event -> string -> result unit).
Context (march :
  ndarray Z -> nat ->
  list (num * num * num) * list (num * num * num) * list (Z * Z * Z)).
Context (glob : list event -> string -> list string).
Context (imread : list event -> string -> result (ndarray Z)).

(** X18.  With fewer than four entries in [sys.argv], [main] raises
    [IndexError] before it prints, lists, reads or writes anything. *)
Theorem main_short_argv (argv : list string) (t : list event) :
  (length argv < 4)%nat ->
  main num_mul num_add to_float zero one float_of_val tiff_pages open_w march
    glob imread argv t
  = (Fail (Builtin (IndexError "list index out of range")), t).
Proof.
  intros H. unfold main, bbind, argv_get.
  destruct argv as [|a0 [|a1 [|a2 [|a3 rest]]]]; try reflexivity.
  cbn [length] in H. lia.
Qed.

(** The files a loop that returns has opened and the commands it has run:
    those of the stacks not yet done, all of them, in order. *)
Lemma main_loop_returns (alreadyDone : list string) (meshes simplify : string)
  (total : nat) (stacks : list string) :
  forall (ii : nat) (t t' : list event),
  main_loop num_mul num_add to_float zero one float_of_val tiff_pages open_w
    march imread alreadyDone meshes simplify total ii stacks t = (Done tt, t') ->
  let todo :=
    List.filter (fun s => negb (py_in (basename s) alreadyDone)) stacks in
  opened t' = opened t ++ map (mesh_file meshes) todo /\
  shell_commands t'
  = shell_commands t ++ map (legacy_command meshes simplify) todo.
Proof.
  induction stacks as [|stack rest IH]; intros ii t t' Hrun; cbv zeta.
  - injection Hrun as <-. cbn. rewrite !app_nil_r. split; reflexivity.
  - cbn [List.filter]. cbn [main_loop] in Hrun.
    destruct (py_in (basename stack) alreadyDone) eqn:Hdone; cbn [negb].
    + unfold bbind at 1 in Hrun. unfold bbind at 1 in Hrun. cbn [emit] in Hrun.
      apply IH in Hrun. cbv zeta in Hrun. destruct Hrun as [Ho Hs].
      rewrite Ho, Hs. trace_simpl. split; reflexivity.
    + unfold bbind at 1 in Hrun. unfold bbind at 1 in Hrun. cbn [emit] in Hrun.
      unfold bbind at 1 in Hrun. unfold ask at 1 in Hrun.
      destruct (imread (t ++ [Print ("Starting " +:+ stack)]) stack)
        as [labelStack|e]; cbn [lift bret bfail] in Hrun; [|discriminate].
      unfold bbind at 1 in Hrun. cbn [emit] in Hrun.
      unfold bbind at 1 in Hrun. cbn [emit] in Hrun.
      match type of Hrun with
      | context [calcMesh ?a ?b ?c ?d ?e ?f ?g ?h ?i ?j ?s ?l ?m ?r0 ?t0] =>
          pose proof (calcMesh_outcome a b c d e f g h i j s l m r0 t0) as Hc;
          destruct (calcMesh a b c d e f g h i j s l m r0 t0) as [r1 t1]
      end.
      cbv zeta in Hc. cbn [fst snd] in Hc.
      destruct Hc as [(e & -> & _)|(-> & Ho1 & Hs1)]; [discriminate|].
      apply IH in Hrun. cbv zeta in Hrun. destruct Hrun as [Ho Hs].
      cbn [map]. rewrite Ho, Hs, Ho1, Hs1. trace_simpl.
      split; reflexivity.
Qed.

(** X19.  When [main] returns, the files it has opened for writing are
    the mesh files of the stacks listed in the label folder whose base
    name is not among the names (base name less the last four characters)
    of the [.obj] files listed in the output folder: all of them, no
    other file, in sorted order of the stacks; and the commands it has
    run are the simplifier on each of those files, in the same order,
    with the ratio text of the command line. *)
Theorem main_opens_pending (argv : list string) (labels meshes simplify : string)
  (t t' : list event) :
  argv !! 1%nat = Some labels ->
  argv !! 2%nat = Some meshes ->
  argv !! 3%nat = Some simplify ->
  main num_mul num_add to_float zero one float_of_val tiff_pages open_w march
    glob imread argv t = (Done tt, t') ->
  let alreadyDone :=
    map (fun i => drop_last4 (basename i)) (glob t (meshes +:+ "*.obj")) in
  let todo :=
    List.filter (fun s => negb (py_in (basename s) alreadyDone))
      (py_sorted (glob t (labels +:+ "*"))) in
  opened t' = opened t ++ map (mesh_file meshes) todo /\
  shell_commands t'
  = shell_commands t ++ map (legacy_command meshes simplify) todo.
Proof.
  intros H1 H2 H3 Hrun alreadyDone todo.
  unfold main, bbind, argv_get in Hrun. rewrite H2 in Hrun. cbn [bret] in Hrun.
  rewrite H3 in Hrun. cbn [bret] in Hrun. rewrite H1 in Hrun. cbn [bret] in Hrun.
  exact (main_loop_returns _ _ _ _ _ _ _ _ Hrun).
Qed.

End MainProperties.

Lemma main_short_argv_witness :
  main Z.mul Z.add Z_to_float 0 1 (fun v : Z => Return v) sample_tiff_pages
    sample_open_w sample_march sample_glob sample_imread
    ["vol2mesh.py"; "in/"; "out/"] []
  = (Fail (Builtin (IndexError "list index out of range")), []).
Proof.
  apply (main_short_argv Z.mul Z.add Z_to_float 0 1 (fun v : Z => Return v)
           sample_tiff_pages sample_open_w sample_march sample_glob
           sample_imread).
  cbn [length]. lia.
Defined.

Lemma main_opens_pending_witness :
  opened (main Z.mul Z.add Z_to_float 0 1 (fun v : Z => Return v)
            sample_tiff_pages sample_open_w sample_march sample_glob
            sample_imread sample_argv []).2
  = opened [] ++ map (mesh_file "out/") ["in/b.tif"] /\
  shell_commands (main Z.mul Z.add Z_to_float 0 1 (fun v : Z => Return v)
                    sample_tiff_pages sample_open_w sample_march sample_glob
                    sample_imread sample_argv []).2
  = shell_commands [] ++ map (legacy_command "out/" "0.2") ["in/b.tif"].
Proof.
  apply (main_opens_pending Z.mul Z.add Z_to_float 0 1 (fun v : Z => Return v)
           sample_tiff_pages sample_open_w sample_march sample_glob
           sample_imread sample_argv "in/" "out/" "0.2" []).
  - reflexivity.
  - reflexivity.
  - reflexivity.
  - vm_compute. reflexivity.
Defined.

Lemma calcMesh_returns_one_file_witness :
  opened (calcMesh Z.mul Z.add Z_to_float 0 1 (fun v : Z => Return v)
            sample_tiff_pages sample_open_w sample_march (fun r : string => r)
            "in/b.tif" centre_voxel "out/" "0.2" []).2
  = opened [] ++ [mesh_file "out/" "in/b.tif"] /\
  shell_commands
    (calcMesh Z.mul Z.add Z_to_float 0 1 (fun v : Z => Return v)
       sample_tiff_pages sample_open_w sample_march (fun r : string => r)
       "in/b.tif" centre_voxel "out/" "0.2" []).2
  = shell_commands []
    ++ ["fq-mesh-simplify " +:+ dquote
        +:+ ("./" +:+ mesh_file "out/" "in/b.tif") +:+ dquote +:+ " "
        +:+ dquote +:+ ("./" +:+ "out/" +:+ basename "in/b.tif" +:+ ".smooth.obj")
        +:+ dquote +:+ " " +:+ "0.2"].
Proof.
  apply (calcMesh_returns_one_file Z.mul Z.add Z_to_float 0 1
           (fun v : Z => Return v) sample_tiff_pages sample_open_w sample_march
           (fun r : string => r) "in/b.tif" centre_voxel "out/" "0.2" []).
  vm_compute. reflexivity.
Defined.

(** The sample run: [a.tif] is skipped, [b.tif] is meshed. *)
Example main_sample_run :
  (main Z.mul Z.add Z_to_float 0 1 (fun v : Z => Return v) sample_tiff_pages
     sample_open_w sample_march sample_glob sample_imread sample_argv []).1
  = Done tt /\
  file_events
    (main Z.mul Z.add Z_to_float 0 1 (fun v : Z => Return v) sample_tiff_pages
       sample_open_w sample_march sample_glob sample_imread sample_argv []).2
  = [Open "out/b.tif.obj";
     Write "out/b.tif.obj" ("# OBJ file" +:+ newline);
     Write "out/b.tif.obj" ("v 16.000 4.000 6.000 " +:+ newline);
     Write "out/b.tif.obj" ("f 3 2 1 " +:+ newline)].
Proof. split; vm_compute; reflexivity. Qed.
